(** * MessageBird REST client: request builder and response dispatcher

    A shallow embedding of [client.go] (package [messagebird]) together with
    the result containers of the voice API ([call.go], [call_flow.go],
    [recording.go], [transcription.go], [webhook.go]).

    Go strings are byte strings and are carried as [string]; Go maps are
    [gmap]s; a pointer that may be nil is an [option]; a call that returns
    [(value, error)] returns a pair or a [result]; writes to the log and to
    standard output, the request sent and the decode attempted are recorded
    as a trace of events in a small writer monad that also carries Go's
    run-time panics. *)

From Stdlib Require Import ZArith NArith Ascii String List Lia.
From stdpp Require Import base option list strings sorting gmap fin_maps.
Import ListNotations.

Local Open Scope string_scope.
Local Open Scope Z_scope.

(** ** Bytes *)

Module Bytes.

Definition code (c : ascii) : N := N_of_ascii c.

Definition between (lo hi c : ascii) : bool :=
  (code lo <=? code c)%N && (code c <=? code hi)%N.

Definition is_digit (c : ascii) : bool := between "0" "9" c.
Definition is_lower (c : ascii) : bool := between "a" "z" c.
Definition is_upper (c : ascii) : bool := between "A" "Z" c.
Definition is_alnum (c : ascii) : bool := is_digit c || is_lower c || is_upper c.

Definition to_lower (c : ascii) : ascii :=
  if is_upper c then ascii_of_N (code c + 32) else c.
Definition to_upper (c : ascii) : ascii :=
  if is_lower c then ascii_of_N (code c - 32) else c.

Fixpoint mem (c : ascii) (s : string) : bool :=
  match s with
  | EmptyString => false
  | String d s' => Ascii.eqb c d || mem c s'
  end.

End Bytes.

(** ** net/url: query escaping and [url.Values]

    The query-string functions of Go's standard library that [createRequest]
    calls, written out byte by byte. *)

Module url.

(** [url.Values]: [map[string][]string]. *)
Abbreviation Values := (gmap string (list string)).

(** [shouldEscape(c, encodeQueryComponent)]: everything except the
    unreserved bytes is escaped. *)
Definition shouldEscape (c : ascii) : bool :=
  negb (Bytes.is_alnum c || Bytes.mem c "-_.~").

Definition upperhex (n : N) : ascii :=
  if (n <? 10)%N then ascii_of_N (48 + n) else ascii_of_N (55 + n).

Definition escapeByte (c : ascii) : string :=
  if shouldEscape c then
    if Ascii.eqb c " " then "+"
    else String "%" (String (upperhex (Bytes.code c / 16))
                            (String (upperhex (Bytes.code c mod 16)) ""))
  else String c "".

Fixpoint QueryEscape (s : string) : string :=
  match s with
  | EmptyString => ""
  | String c s' => escapeByte c +:+ QueryEscape s'
  end.

Definition ishex (c : ascii) : bool :=
  Bytes.is_digit c || Bytes.between "a" "f" c || Bytes.between "A" "F" c.

Definition unhex (c : ascii) : N :=
  if Bytes.is_digit c then Bytes.code c - 48
  else if Bytes.between "a" "f" c then Bytes.code c - 97 + 10
  else if Bytes.between "A" "F" c then Bytes.code c - 65 + 10
  else 0.

(** [QueryUnescape]: [None] is Go's [EscapeError]. *)
Fixpoint QueryUnescape (s : string) : option string :=
  match s with
  | EmptyString => Some ""
  | String c t =>
      if Ascii.eqb c "%" then
        match t with
        | String a (String b t') =>
            if ishex a && ishex b
            then String (ascii_of_N (unhex a * 16 + unhex b)) <$> QueryUnescape t'
            else None
        | _ => None
        end
      else if Ascii.eqb c "+" then String " " <$> QueryUnescape t
      else String c <$> QueryUnescape t
  end.

(** [strings.Cut(s, sep)] for a one-byte separator. *)
Fixpoint Cut (s : string) (sep : ascii) : string * string * bool :=
  match s with
  | EmptyString => ("", "", false)
  | String c t =>
      if Ascii.eqb c sep then ("", t, true)
      else let '(before, after, found) := Cut t sep in (String c before, after, found)
  end.

(** [Values.Set]. *)
Definition Set_ (v : Values) (key value : string) : Values := <[key := [value]]> v.

(** The keys of [v] in the order [slices.Sort] puts them. *)
Definition sortedKeys (v : Values) : list string :=
  merge_sort String.le (map fst (map_to_list v)).

(** [Values.Encode]: one [key=value] per value, keys sorted, joined by [&]. *)
Definition Encode (v : Values) : string :=
  foldl (fun buf k =>
           let vs := default [] (v !! k) in
           let keyEscaped := QueryEscape k in
           foldl (fun buf x =>
                    (if String.eqb buf "" then buf else buf +:+ "&")
                      +:+ keyEscaped +:+ "=" +:+ QueryEscape x)
                 buf vs)
        "" (sortedKeys v).

(** The pieces of a query between [&] separators, as the loop of
    [parseQuery] cuts them off one at a time. *)
Fixpoint pieces (s : string) : list string :=
  match s with
  | EmptyString => [""]
  | String c t =>
      if Ascii.eqb c "&" then "" :: pieces t
      else match pieces t with
           | p :: ps => String c p :: ps
           | [] => [String c ""]
           end
  end.

(** One round of the loop of [parseQuery] on the piece [key]. *)
Definition parsePiece (st : Values * option string) (key : string)
  : Values * option string :=
  let '(m, err) := st in
  if Bytes.mem ";" key then
    (m, Some "invalid semicolon separator in query")
  else if String.eqb key "" then (m, err)
  else
    let '(key, value, _) := Cut key "=" in
    match QueryUnescape key with
    | None => (m, match err with None => Some "invalid URL escape" | Some _ => err end)
    | Some key =>
        match QueryUnescape value with
        | None => (m, match err with None => Some "invalid URL escape" | Some _ => err end)
        | Some value => (<[key := (default [] (m !! key) ++ [value])%list]> m, err)
        end
    end.

(** [url.ParseQuery]: the map of all well-formed pairs and the first error. *)
Definition ParseQuery (query : string) : Values * option string :=
  foldl parsePiece (∅, None) (pieces query).

(** *** Vocabulary of the statements about [Encode] and [ParseQuery] *)

(** The pairs of [v], key by key in sorted order, each key with its values
    in the order they are stored. *)
Definition pairs (v : Values) : list (string * string) :=
  k ← sortedKeys v; (fun x => (k, x)) <$> default [] (v !! k).

(** The values a list of pairs gives to the key [k], in order. *)
Definition values_of (k : string) (ps : list (string * string)) : list string :=
  (filter (fun p => fst p = k) ps).*2.

Definition pair_text (p : string * string) : string :=
  QueryEscape (fst p) +:+ "=" +:+ QueryEscape (snd p).

Fixpoint join_pairs (ps : list (string * string)) : string :=
  match ps with
  | [] => ""
  | p :: rest =>
      match rest with
      | [] => pair_text p
      | _ => pair_text p +:+ "&" +:+ join_pairs rest
      end
  end.

(** One write of the inner loop of [Encode]. *)
Definition write_pair (buf : string) (p : string * string) : string :=
  (if String.eqb buf "" then buf else buf +:+ "&")
    +:+ QueryEscape (fst p) +:+ "=" +:+ QueryEscape (snd p).

(** [m[key] = append(m[key], value)]. *)
Definition add_pair (m : Values) (p : string * string) : Values :=
  <[fst p := (default [] (m !! fst p) ++ [snd p])%list]> m.

End url.

(** ** Errors

    A Go [error] is an interface value; the errors this package can see are
    its two sentinels and the errors of the library calls it makes, one
    constructor per call that can raise one. [err == ErrResponse] compares
    identities: only the sentinel itself is equal to it. *)

Inductive Error : Type :=
  | ErrResponse            (* "The MessageBird API returned an error" *)
  | ErrUnexpectedResponse  (* "The MessageBird API is currently unavailable" *)
  | ParseError (msg : string)      (* url.Parse *)
  | MethodError (msg : string)     (* http.NewRequest, invalid method *)
  | TransportError (msg : string)  (* http.Client.Do *)
  | ReadError (msg : string)       (* ioutil.ReadAll *)
  | MarshalError (msg : string)    (* json.Marshal *)
  | UnmarshalError (msg : string). (* json.Unmarshal *)

#[global] Instance Error_eq_dec : EqDecision Error.
Proof. solve_decision. Defined.

Inductive result (A : Type) : Type :=
  | Ok (a : A)
  | Err (e : Error).
Arguments Ok {A} a.
Arguments Err {A} e.

(** ** net/http: headers, requests, responses *)

Module http.

(** [httpguts.IsTokenRune], which is also [validHeaderFieldByte]. *)
Definition isToken (c : ascii) : bool :=
  Bytes.is_alnum c || Bytes.mem c "!#$%&'*+-.^_`|~".

Fixpoint allToken (s : string) : bool :=
  match s with
  | EmptyString => true
  | String c t => isToken c && allToken t
  end.

Definition validMethod (method : string) : bool :=
  negb (String.eqb method "") && allToken method.

Fixpoint canonical (upper : bool) (s : string) : string :=
  match s with
  | EmptyString => ""
  | String c t =>
      let c' := if upper then Bytes.to_upper c else Bytes.to_lower c in
      String c' (canonical (Ascii.eqb c' "-") t)
  end.

(** [textproto.CanonicalMIMEHeaderKey]: a key with a byte that is not a token
    byte is left as it is. *)
Definition CanonicalMIMEHeaderKey (s : string) : string :=
  if allToken s then canonical true s else s.

(** [http.Header]: [map[string][]string]. *)
Abbreviation Header := (gmap string (list string)).

Definition Set_ (h : Header) (key value : string) : Header :=
  <[CanonicalMIMEHeaderKey key := [value]]> h.

Definition Add (h : Header) (key value : string) : Header :=
  let k := CanonicalMIMEHeaderKey key in
  <[k := (default [] (h !! k) ++ [value])%list]> h.

(** [Header.Get]: the first value of the key, [""] when there is none.
    [Has] tells apart an absent header from an empty one. *)
Definition Get (h : Header) (key : string) : string :=
  match h !! CanonicalMIMEHeaderKey key with
  | Some (v :: _) => v
  | _ => ""
  end.

Definition Has (h : Header) (key : string) : bool :=
  bool_decide (is_Some (h !! CanonicalMIMEHeaderKey key)).

(** A parsed [*url.URL], carried as the text [URL.String()] gives back. *)
Record URL : Type := { URL_String : string }.

(** [*http.Request]; [Body] is [None] for a request without a body. *)
Record Request : Type := {
  Method : string;
  Url : URL;
  Headers : Header;
  Body : option string;
}.

Definition with_header (r : Request) (h : Header) : Request :=
  {| Method := Method r; Url := Url r; Headers := h; Body := Body r |}.

(** [response.Body]: an [io.ReadCloser] that [ioutil.ReadAll] drains
    or fails on. *)
Inductive ReadCloser : Type :=
  | Reads (data : string)
  | ReadFails (msg : string).

Record Response : Type := {
  StatusCode : Z;
  ResponseBody : ReadCloser;
}.

(** [*http.Client]: [Do] is the transport and the server behind it; it
    answers with a response or fails with the cause of the failure. *)
Record Client : Type := {
  Do : Request -> string + Response;
}.

End http.

(** ** The parts of the Go library taken as given

    [url.Parse] (followed by [URL.String]) and [runtime.Version()]. *)

Class GoLib : Type := {
  url_Parse : string -> string + http.URL;
  runtime_Version : string;
}.

(** [encoding/json]: [json.Unmarshal] into a value of type [V] gives the
    value as the decoder leaves it and the error, if any; [json.Marshal] of a
    value of type [P] gives its text or fails. *)
Class JSONUnmarshal (V : Type) : Type :=
  json_Unmarshal : string -> V -> V * option string.

Class JSONMarshal (P : Type) : Type :=
  json_Marshal : P -> string + string.

(** ** Effects *)

Inductive event : Type :=
  | EvLog (line : string)            (* log.Printf *)
  | EvStdout (text : string)         (* fmt.Printf *)
  | EvSend (r : http.Request)        (* the request handed to the transport *)
  | EvUnmarshal (body : string).     (* json.Unmarshal called on this body *)

Inductive outcome (A : Type) : Type :=
  | Val (a : A)
  | Panic (msg : string).
Arguments Val {A} a.
Arguments Panic {A} msg.

(** A computation ends in a value or a run-time panic and leaves a trace. *)
Definition M (A : Type) : Type := outcome A * list event.

Definition ret {A} (a : A) : M A := (Val a, []).

Definition bind {A B} (m : M A) (k : A -> M B) : M B :=
  match m with
  | (Val a, t) => let '(r, t') := k a in (r, t ++ t')%list
  | (Panic msg, t) => (Panic msg, t)
  end.

Definition emit (e : event) : M unit := (Val tt, [e]).
Definition panic {A} (msg : string) : M A := (Panic msg, []).

Definition value {A} (m : M A) : outcome A := fst m.
Definition trace {A} (m : M A) : list event := snd m.

Notation "x <- m ;; k" := (bind m (fun x => k))
  (at level 100, m at next level, right associativity).
Notation "m ;;; k" := (bind m (fun _ => k))
  (at level 100, right associativity).

Definition log_Printf (line : string) : M unit := emit (EvLog line).
Definition fmt_Printf (text : string) : M unit := emit (EvStdout text).

(** ** client.go *)

Definition ClientVersion : string := "3.0.0".
Definition RestEndpoint : string := "https://rest.messagebird.com".
Definition VoiceEndpoint : string := "https://voice.messagebird.com".

Definition BalancePath : string := "balance".
Definition HLRPath : string := "hlr".
Definition MessagePath : string := "messages".
Definition MMSPath : string := "mms".
Definition VoiceMessagePath : string := "voicemessages".
Definition VerifyPath : string := "verify".
Definition CallFlowPath : string := "call-flows".
Definition CallPath : string := "calls".
Definition LegPath : string := "legs".
Definition RecordingPath : string := "recordings".
Definition TranscriptionPath : string := "transcriptions".
Definition WebhookPath : string := "webhooks".

Definition Get : string := "GET".
Definition Post : string := "POST".
Definition Delete : string := "Delete".

(** [*log.Logger]. *)
Record Logger : Type := { Logger_prefix : string }.

Record Client : Type := {
  AccessKey : string;
  HTTPClient : http.Client;
  DebugLog : option Logger;
}.

(** [New]. The [&http.Client{}] that the source allocates is the network;
    here the transport is handed in, so that a server can be chosen. *)
Definition New (accessKey : string) (transport : http.Client) : Client :=
  {| AccessKey := accessKey; HTTPClient := transport; DebugLog := None |}.

Definition newline : string := String (ascii_of_N 10) EmptyString.

(** [ioutil.ReadAll]. *)
Definition ioutil_ReadAll (r : http.ReadCloser) : result string :=
  match r with
  | http.Reads data => Ok data
  | http.ReadFails msg => Err (ReadError msg)
  end.

(** [json.Marshal] of a value behind an interface or a pointer: nil is
    encoded as [null]. *)
Definition json_Marshal_ptr {P} `{JSONMarshal P} (params : option P) : string + string :=
  match params with
  | None => inr "null"
  | Some p => json_Marshal p
  end.

Section Core.

Context `{GoLib}.

(** [http.NewRequest]: the method is checked, the URL parsed again, the
    header set starts empty. *)
Definition http_NewRequest (method url : string) (body : option string)
  : result http.Request :=
  let method := if String.eqb method "" then "GET" else method in
  if negb (http.validMethod method) then
    Err (MethodError ("net/http: invalid method " +:+ method))
  else
    match url_Parse url with
    | inl msg => Err (ParseError msg)
    | inr u => Ok {| http.Method := method; http.Url := u;
                     http.Headers := ∅; http.Body := body |}
    end.

Definition userAgent : string :=
  "MessageBird/ApiClient/" +:+ ClientVersion +:+ " Go/" +:+ runtime_Version.

(** The three [Header.Add] calls that end both request builders. *)
Definition addCommonHeaders (c : Client) (req : http.Request) : http.Request :=
  let h := http.Add (http.Headers req) "Accept" "application/json" in
  let h := http.Add h "Authorization" ("AccessKey " +:+ AccessKey c) in
  let h := http.Add h "User-Agent" userAgent in
  http.with_header req h.

Definition createRequest (c : Client) (method endpoint path : string)
    (params : option url.Values) : M (result http.Request) :=
  match url_Parse (endpoint +:+ "/" +:+ path) with
  | inl msg => ret (Err (ParseError msg))
  | inr uri =>
      built <-
        match params with
        | Some params =>
            let body := url.Encode params in
            match http_NewRequest method (http.URL_String uri) (Some body) with
            | Err err => ret (Err err)
            | Ok req =>
                match DebugLog c with
                | Some _ =>
                    match url.QueryUnescape body with
                    | Some unescapedBody =>
                        log_Printf ("HTTP REQUEST: " +:+ method +:+ " "
                                      +:+ http.URL_String uri +:+ " " +:+ unescapedBody)
                    | None =>
                        log_Printf ("HTTP REQUEST: " +:+ method +:+ " "
                                      +:+ http.URL_String uri +:+ " " +:+ body)
                    end
                | None => ret tt
                end ;;;
                ret (Ok (http.with_header req
                           (http.Set_ (http.Headers req) "Content-Type"
                                      "application/x-www-form-urlencoded")))
            end
        | None =>
            match http_NewRequest method (http.URL_String uri) None with
            | Err err => ret (Err err)
            | Ok req =>
                match DebugLog c with
                | Some _ =>
                    log_Printf ("HTTP REQUEST: " +:+ method +:+ " " +:+ http.URL_String uri)
                | None => ret tt
                end ;;;
                ret (Ok req)
            end
        end ;;
      match built with
      | Err err => ret (Err err)
      | Ok req => ret (Ok (addCommonHeaders c req))
      end
  end.

Definition createJSONRequest {P} `{JSONMarshal P} (c : Client)
    (method endpoint path : string) (params : option P) : M (result http.Request) :=
  match url_Parse (endpoint +:+ "/" +:+ path) with
  | inl msg => ret (Err (ParseError msg))
  | inr uri =>
      match json_Marshal_ptr params with
      | inl msg => ret (Err (MarshalError msg))
      | inr jsonEncoded =>
          match http_NewRequest method (http.URL_String uri) (Some jsonEncoded) with
          | Err err => ret (Err err)
          | Ok req =>
              let req := http.with_header req
                           (http.Set_ (http.Headers req) "Content-Type" "application/json") in
              ret (Ok (addCommonHeaders c req))
          end
      end
  end.

(** [request]: [v] is the container behind the [interface{}] argument, [None]
    for a nil interface. The container is filled in place in Go; here the
    container as the call leaves it is returned next to the error. The
    deferred [response.Body.Close()] has no effect that the model records. *)
Definition request {V} `{JSONUnmarshal V} (c : Client) (v : option V)
    (req : http.Request) : M (option V * option Error) :=
  emit (EvSend req) ;;;
  match http.Do (HTTPClient c) req with
  | inl cause => ret (v, Some (TransportError cause))
  | inr response =>
      match ioutil_ReadAll (http.ResponseBody response) with
      | Err err => ret (v, Some err)
      | Ok responseBody =>
          match DebugLog c with
          | Some _ => log_Printf ("HTTP RESPONSE: " +:+ responseBody)
          | None => ret tt
          end ;;;
          fmt_Printf ("HTTP RESPONSE: " +:+ responseBody +:+ newline) ;;;
          if http.StatusCode response =? 500 then
            ret (v, Some ErrUnexpectedResponse)
          else
            decoded <-
              match v with
              | Some x =>
                  emit (EvUnmarshal responseBody) ;;;
                  let '(x', err) := json_Unmarshal responseBody x in
                  ret (Some x', UnmarshalError <$> err)
              | None => ret (None, None)
              end ;;
            match decoded with
            | (v', Some err) => ret (v', Some err)
            | (v', None) =>
                if (http.StatusCode response =? 200) || (http.StatusCode response =? 201)
                then ret (v', None)
                else ret (v', Some ErrResponse)
            end
      end
  end.

End Core.

(** *** Vocabulary of the statements about [request] *)

(** What [request] leaves on the trace before it looks at the status. *)
Definition preamble (c : Client) (req : http.Request) (body : string) : list event :=
  EvSend req
    :: match DebugLog c with
       | Some _ => [EvLog ("HTTP RESPONSE: " +:+ body)]
       | None => []
       end
    ++ [EvStdout ("HTTP RESPONSE: " +:+ body +:+ newline)].

(** The status-code classification at the end of [request]. *)
Definition classify (status : Z) : option Error :=
  if (status =? 200) || (status =? 201) then None else Some ErrResponse.

(** ** Result containers of the voice API *)

(** [time.Time], carried as its RFC 3339 text; [float32], carried as the
    decimal literal it was read from. No operation of the client computes
    with either. *)
Record Time : Type := { Time_text : string }.
Record float32 : Type := { float32_text : string }.

(** The zero value of a Go type, as [&T{}] allocates it. *)
Class Zero (A : Type) : Type := zero : A.

(** step.go *)
Record Step : Type := {
  Step_ID : string;
  Step_Action : string;
  Step_Options : gmap string string;
}.

Record StepParams : Type := {
  StepParams_Action : string;
  StepParams_Options : gmap string string;
}.

(** call_flow.go *)
Record CallFlow : Type := {
  CallFlow_ID : string;
  CallFlow_Title : string;
  CallFlow_Steps : list Step;
  CallFlow_CreatedAt : option Time;
  CallFlow_UpdatedAt : option Time;
}.

Record CallFlowParams : Type := {
  CallFlowParams_Title : string;
  CallFlowParams_Steps : list StepParams;
}.

Record CallFlowList : Type := {
  CallFlowList_Links : gmap string string;
  CallFlowList_Pagination : gmap string Z;
  CallFlowList_Data : list CallFlow;
}.

(** call.go *)
Record Call : Type := {
  Call_ID : string;
  Call_NumberID : string;
  Call_Status : string;
  Call_Source : string;
  Call_Destination : string;
  Call_CreatedAt : option Time;
  Call_UpdatedAt : option Time;
  Call_EndedAt : option Time;
  Call_Links : gmap string (option string);
}.

Record CallList : Type := {
  CallList_Data : list Call;
  CallList_Links : gmap string (option string);
  CallList_Pagination : gmap string Z;
}.

Record CallParams : Type := {
  CallParams_Source : string;
  CallParams_Destination : string;
  CallParams_CallFlow : CallFlowParams;
}.

(** leg.go *)
Record Leg : Type := {
  Leg_ID : string;
  Leg_CallID : string;
  Leg_Source : string;
  Leg_Destination : string;
  Leg_Status : string;
  Leg_Direction : string;
  Leg_Cost : float32;
  Leg_Currency : string;
  Leg_Duration : Z;
  Leg_CreatedAt : option Time;
  Leg_UpdatedAt : option Time;
  Leg_EndedAt : option Time;
}.

Record LegList : Type := {
  LegList_Data : list Leg;
  LegList_Links : gmap string (option string);
  LegList_Pagination : gmap string Z;
}.

(** recording.go *)
Record Recording : Type := {
  Recording_ID : string;
  Recording_Format : string;
  Recording_LegID : string;
  Recording_Status : string;
  Recording_Duration : Z;
  Recording_CreatedAt : option Time;
  Recording_UpdatedAt : option Time;
  Recording_Links : gmap string (option string);
}.

Record RecordingList : Type := {
  RecordingList_Data : list Recording;
  RecordingList_Links : gmap string (option string);
  RecordingList_Pagination : gmap string Z;
}.

(** transcription.go *)
Record Transcription : Type := {
  Transcription_ID : string;
  Transcription_RecordingID : string;
  Transcription_Error : string;
  Transcription_CreatedAt : option Time;
  Transcription_UpdatedAt : option Time;
  Transcription_Links : gmap string (option string);
}.

Record TranscriptionList : Type := {
  TranscriptionList_Data : list Transcription;
  TranscriptionList_Links : gmap string (option string);
  TranscriptionList_Pagination : gmap string Z;
}.

(** webhook.go *)
Record Webhook : Type := {
  Webhook_ID : string;
  Webhook_URL : string;
  Webhook_Token : string;
  Webhook_CreatedAt : option Time;
  Webhook_UpdatedAt : option Time;
  Webhook_Links : gmap string (option string);
}.

Record WebhookList : Type := {
  WebhookList_Data : list Webhook;
  WebhookList_Links : gmap string (option string);
  WebhookList_Pagination : gmap string Z;
}.

Record WebhookParams : Type := {
  WebhookParams_Title : string;
  WebhookParams_URL : string;
  WebhookParams_Token : string;
}.

#[global] Instance CallFlowList_zero : Zero CallFlowList :=
  {| CallFlowList_Links := ∅; CallFlowList_Pagination := ∅; CallFlowList_Data := [] |}.
#[global] Instance CallList_zero : Zero CallList :=
  {| CallList_Data := []; CallList_Links := ∅; CallList_Pagination := ∅ |}.
#[global] Instance LegList_zero : Zero LegList :=
  {| LegList_Data := []; LegList_Links := ∅; LegList_Pagination := ∅ |}.
#[global] Instance RecordingList_zero : Zero RecordingList :=
  {| RecordingList_Data := []; RecordingList_Links := ∅; RecordingList_Pagination := ∅ |}.
#[global] Instance TranscriptionList_zero : Zero TranscriptionList :=
  {| TranscriptionList_Data := []; TranscriptionList_Links := ∅;
     TranscriptionList_Pagination := ∅ |}.
#[global] Instance WebhookList_zero : Zero WebhookList :=
  {| WebhookList_Data := []; WebhookList_Links := ∅; WebhookList_Pagination := ∅ |}.

(** The untyped [nil] that [NewTranscriptionRequest] passes as payload. *)
#[global] Instance Empty_set_marshal : JSONMarshal Empty_set :=
  fun e => match e with end.

(** [&l[i]]: an index out of range is a run-time panic. *)
Definition index {A} (l : list A) (i : nat) : M A :=
  match l !! i with
  | Some x => ret x
  | None => panic "runtime error: index out of range"
  end.

(** Reading a field through a pointer: a nil pointer is a run-time panic. *)
Definition deref {A} (p : option A) : M A :=
  match p with
  | Some x => ret x
  | None => panic "runtime error: invalid memory address or nil pointer dereference"
  end.

(** A nil [interface{}] has no container to decode into. *)
#[global] Instance Empty_set_unmarshal : JSONUnmarshal Empty_set :=
  fun _ e => match e with end.

(** ** Resource methods of the voice API

    Each method of [*Client] is written out as in the source; a method [F] of
    the source is [Client_F] here, as [F] often names a container type too.
    A returned pointer [*T] is an [option T], nil being [None]. *)

Section Voice.

Context `{GoLib}.
Context `{!JSONUnmarshal CallFlowList, !JSONUnmarshal CallList, !JSONUnmarshal LegList}.
Context `{!JSONUnmarshal RecordingList, !JSONUnmarshal TranscriptionList}.
Context `{!JSONUnmarshal WebhookList}.
Context `{!JSONMarshal CallFlowParams, !JSONMarshal CallParams, !JSONMarshal WebhookParams}.

(** [CallFlow] retrieves the existing CallFlow with the specified id. *)
Definition Client_CallFlow (c : Client) (id : string)
  : M (option CallFlow * option Error) :=
  built <- createRequest c Get VoiceEndpoint (CallFlowPath +:+ "/" +:+ id) None ;;
  match built with
  | Err err => ret (None, Some err)
  | Ok req =>
      r <- request c (Some (zero : CallFlowList)) req ;;
      let '(callFlowList, err) := r in
      match err with
      | Some err =>
          if decide (err = ErrResponse) then
            l <- deref callFlowList ;;
            x <- index (CallFlowList_Data l) 0 ;;
            ret (Some x, Some err)
          else ret (None, Some err)
      | None =>
          l <- deref callFlowList ;;
          x <- index (CallFlowList_Data l) 0 ;;
          ret (Some x, None)
      end
  end.

(** [CallFlows] retrieves all the CallFlows of the user. *)
Definition Client_CallFlows (c : Client)
  : M (option CallFlowList * option Error) :=
  built <- createRequest c Get VoiceEndpoint (CallFlowPath) None ;;
  match built with
  | Err err => ret (None, Some err)
  | Ok req =>
      r <- request c (Some (zero : CallFlowList)) req ;;
      let '(callFlowList, err) := r in
      match err with
      | Some err =>
          if decide (err = ErrResponse) then
            ret (callFlowList, None)
          else ret (None, Some err)
      | None =>
          ret (callFlowList, None)
      end
  end.

(** [NewCallFlow] creates a new CallFlow. *)
Definition Client_NewCallFlow (c : Client) (params : option CallFlowParams)
  : M (option CallFlow * option Error) :=
  built <- createJSONRequest c Post VoiceEndpoint (CallFlowPath) params ;;
  match built with
  | Err err => ret (None, Some err)
  | Ok req =>
      r <- request c (Some (zero : CallFlowList)) req ;;
      let '(callFlowList, err) := r in
      match err with
      | Some err =>
          if decide (err = ErrResponse) then
            l <- deref callFlowList ;;
            x <- index (CallFlowList_Data l) 0 ;;
            ret (Some x, None)
          else ret (None, Some err)
      | None =>
          l <- deref callFlowList ;;
          x <- index (CallFlowList_Data l) 0 ;;
          ret (Some x, None)
      end
  end.

(** [Call] retrieves the existing call with the specified ID. *)
Definition Client_Call (c : Client) (id : string)
  : M (option Call * option Error) :=
  built <- createRequest c Get VoiceEndpoint (CallPath +:+ "/" +:+ id) None ;;
  match built with
  | Err err => ret (None, Some err)
  | Ok req =>
      r <- request c (Some (zero : CallList)) req ;;
      let '(callList, err) := r in
      match err with
      | Some err =>
          if decide (err = ErrResponse) then
            l <- deref callList ;;
            x <- index (CallList_Data l) 0 ;;
            ret (Some x, None)
          else ret (None, Some err)
      | None =>
          l <- deref callList ;;
          x <- index (CallList_Data l) 0 ;;
          ret (Some x, None)
      end
  end.

(** [Calls] retrieves all the Calls of the user. *)
Definition Client_Calls (c : Client)
  : M (option CallList * option Error) :=
  built <- createRequest c Get VoiceEndpoint (CallPath) None ;;
  match built with
  | Err err => ret (None, Some err)
  | Ok req =>
      r <- request c (Some (zero : CallList)) req ;;
      let '(callList, err) := r in
      match err with
      | Some err =>
          if decide (err = ErrResponse) then
            ret (callList, None)
          else ret (None, Some err)
      | None =>
          ret (callList, None)
      end
  end.

(** [NewCall] creates a new Call resource. On success the source returns
    the outer [err], which is nil at that point. *)
Definition Client_NewCall (c : Client) (params : option CallParams)
  : M (option Call * option Error) :=
  built <- createJSONRequest c Post VoiceEndpoint (CallPath) params ;;
  match built with
  | Err err => ret (None, Some err)
  | Ok req =>
      r <- request c (Some (zero : CallList)) req ;;
      let '(callList, err) := r in
      match err with
      | Some err =>
          if decide (err = ErrResponse) then
            l <- deref callList ;;
            x <- index (CallList_Data l) 0 ;;
            ret (Some x, Some err)
          else ret (None, Some err)
      | None =>
          l <- deref callList ;;
          x <- index (CallList_Data l) 0 ;;
          ret (Some x, None)
      end
  end.

(** [Leg] returns the existing Leg resource with the given legID that belongs
    to the given Call. *)
Definition Client_Leg (c : Client) (callID legID : string)
  : M (option Leg * option Error) :=
  built <- createRequest c Get VoiceEndpoint (CallPath +:+ "/" +:+ callID +:+ "/" +:+ LegPath +:+ "/" +:+ legID) None ;;
  match built with
  | Err err => ret (None, Some err)
  | Ok req =>
      r <- request c (Some (zero : LegList)) req ;;
      let '(legList, err) := r in
      match err with
      | Some err =>
          if decide (err = ErrResponse) then
            l <- deref legList ;;
            x <- index (LegList_Data l) 0 ;;
            ret (Some x, None)
          else ret (None, Some err)
      | None =>
          l <- deref legList ;;
          x <- index (LegList_Data l) 0 ;;
          ret (Some x, None)
      end
  end.

(** [Legs] returns all the Legs belonging to the given Call. *)
Definition Client_Legs (c : Client) (callID : string)
  : M (option LegList * option Error) :=
  built <- createRequest c Get VoiceEndpoint (CallPath +:+ "/" +:+ callID +:+ "/" +:+ LegPath) None ;;
  match built with
  | Err err => ret (None, Some err)
  | Ok req =>
      r <- request c (Some (zero : LegList)) req ;;
      let '(legList, err) := r in
      match err with
      | Some err =>
          if decide (err = ErrResponse) then
            ret (legList, None)
          else ret (None, Some err)
      | None =>
          ret (legList, None)
      end
  end.

(** [Recording] returns the existing Recording resource. *)
Definition Client_Recording (c : Client) (callID legID recordingID : string)
  : M (option Recording * option Error) :=
  built <- createRequest c Get VoiceEndpoint (CallPath +:+ "/" +:+ callID +:+ "/" +:+ LegPath +:+ "/" +:+ legID +:+ "/" +:+ RecordingPath +:+ "/" +:+ recordingID) None ;;
  match built with
  | Err err => ret (None, Some err)
  | Ok req =>
      r <- request c (Some (zero : RecordingList)) req ;;
      let '(recordingList, err) := r in
      match err with
      | Some err =>
          if decide (err = ErrResponse) then
            l <- deref recordingList ;;
            x <- index (RecordingList_Data l) 0 ;;
            ret (Some x, None)
          else ret (None, Some err)
      | None =>
          l <- deref recordingList ;;
          x <- index (RecordingList_Data l) 0 ;;
          ret (Some x, None)
      end
  end.

(** [Recordings] returns all the recordings of a leg. *)
Definition Client_Recordings (c : Client) (callID legID : string)
  : M (option RecordingList * option Error) :=
  built <- createRequest c Get VoiceEndpoint (CallPath +:+ "/" +:+ callID +:+ "/" +:+ LegPath +:+ "/" +:+ legID +:+ "/" +:+ RecordingPath) None ;;
  match built with
  | Err err => ret (None, Some err)
  | Ok req =>
      r <- request c (Some (zero : RecordingList)) req ;;
      let '(recordingList, err) := r in
      match err with
      | Some err =>
          if decide (err = ErrResponse) then
            ret (recordingList, None)
          else ret (None, Some err)
      | None =>
          ret (recordingList, None)
      end
  end.

(** [Transcription] returns the existing Transcription resource. *)
Definition Client_Transcription (c : Client) (callID legID recordingID transcriptionID : string)
  : M (option Transcription * option Error) :=
  built <- createRequest c Get VoiceEndpoint (CallPath +:+ "/" +:+ callID +:+ "/" +:+ LegPath +:+ "/" +:+ legID +:+ "/" +:+ RecordingPath +:+ "/" +:+ recordingID +:+ "/" +:+ TranscriptionPath +:+ "/" +:+ transcriptionID) None ;;
  match built with
  | Err err => ret (None, Some err)
  | Ok req =>
      r <- request c (Some (zero : TranscriptionList)) req ;;
      let '(transcriptionList, err) := r in
      match err with
      | Some err =>
          if decide (err = ErrResponse) then
            l <- deref transcriptionList ;;
            x <- index (TranscriptionList_Data l) 0 ;;
            ret (Some x, None)
          else ret (None, Some err)
      | None =>
          l <- deref transcriptionList ;;
          x <- index (TranscriptionList_Data l) 0 ;;
          ret (Some x, None)
      end
  end.

(** [Transcriptions] returns all the Transcriptions of a recording; the path
    the source builds does not use [recordingID]. *)
Definition Client_Transcriptions (c : Client) (callID legID recordingID : string)
  : M (option TranscriptionList * option Error) :=
  built <- createRequest c Get VoiceEndpoint (CallPath +:+ "/" +:+ callID +:+ "/" +:+ LegPath +:+ "/" +:+ legID +:+ "/" +:+ RecordingPath +:+ "/" +:+ TranscriptionPath) None ;;
  match built with
  | Err err => ret (None, Some err)
  | Ok req =>
      r <- request c (Some (zero : TranscriptionList)) req ;;
      let '(transcriptionList, err) := r in
      match err with
      | Some err =>
          if decide (err = ErrResponse) then
            ret (transcriptionList, None)
          else ret (None, Some err)
      | None =>
          ret (transcriptionList, None)
      end
  end.

(** [NewTranscriptionRequest] creates a new Transcription request for the
    given recording; the path the source builds does not use [recordingID]. *)
Definition Client_NewTranscriptionRequest (c : Client) (callID legID recordingID : string)
  : M (option Transcription * option Error) :=
  built <- createJSONRequest c Post VoiceEndpoint (CallPath +:+ "/" +:+ callID +:+ "/" +:+ LegPath +:+ "/" +:+ legID +:+ "/" +:+ RecordingPath +:+ "/" +:+ TranscriptionPath) (@None Empty_set) ;;
  match built with
  | Err err => ret (None, Some err)
  | Ok req =>
      r <- request c (Some (zero : TranscriptionList)) req ;;
      let '(transcriptionList, err) := r in
      match err with
      | Some err =>
          if decide (err = ErrResponse) then
            l <- deref transcriptionList ;;
            x <- index (TranscriptionList_Data l) 0 ;;
            ret (Some x, None)
          else ret (None, Some err)
      | None =>
          l <- deref transcriptionList ;;
          x <- index (TranscriptionList_Data l) 0 ;;
          ret (Some x, None)
      end
  end.

(** [Webhook]. *)
Definition Client_Webhook (c : Client) (id : string)
  : M (option Webhook * option Error) :=
  built <- createRequest c Get VoiceEndpoint (WebhookPath +:+ "/" +:+ id) None ;;
  match built with
  | Err err => ret (None, Some err)
  | Ok req =>
      r <- request c (Some (zero : WebhookList)) req ;;
      let '(webhookList, err) := r in
      match err with
      | Some err =>
          if decide (err = ErrResponse) then
            l <- deref webhookList ;;
            x <- index (WebhookList_Data l) 0 ;;
            ret (Some x, Some err)
          else ret (None, Some err)
      | None =>
          l <- deref webhookList ;;
          x <- index (WebhookList_Data l) 0 ;;
          ret (Some x, None)
      end
  end.

(** [Webhooks]. *)
Definition Client_Webhooks (c : Client)
  : M (option WebhookList * option Error) :=
  built <- createRequest c Get VoiceEndpoint (WebhookPath) None ;;
  match built with
  | Err err => ret (None, Some err)
  | Ok req =>
      r <- request c (Some (zero : WebhookList)) req ;;
      let '(webhookList, err) := r in
      match err with
      | Some err =>
          if decide (err = ErrResponse) then
            ret (webhookList, Some err)
          else ret (None, Some err)
      | None =>
          ret (webhookList, None)
      end
  end.

(** [NewWebhook]. *)
Definition Client_NewWebhook (c : Client) (params : option WebhookParams)
  : M (option Webhook * option Error) :=
  built <- createJSONRequest c Post VoiceEndpoint (WebhookPath) params ;;
  match built with
  | Err err => ret (None, Some err)
  | Ok req =>
      r <- request c (Some (zero : WebhookList)) req ;;
      let '(webhookList, err) := r in
      match err with
      | Some err =>
          if decide (err = ErrResponse) then
            l <- deref webhookList ;;
            x <- index (WebhookList_Data l) 0 ;;
            ret (Some x, Some err)
          else ret (None, Some err)
      | None =>
          l <- deref webhookList ;;
          x <- index (WebhookList_Data l) 0 ;;
          ret (Some x, None)
      end
  end.

(** [DeleteWebhook]: no container is passed to [request]. *)
Definition Client_DeleteWebhook (c : Client) (id : string) : M (option Error) :=
  built <- createRequest c Delete VoiceEndpoint (WebhookPath +:+ "/" +:+ id) None ;;
  match built with
  | Err err => ret (Some err)
  | Ok req =>
      r <- request c (@None Empty_set) req ;;
      match snd r with
      | Some err => ret (Some err)
      | None => ret None
      end
  end.

End Voice.

(** ** Resource methods of the REST API

    The methods of client.go whose parameters are built in client.go itself.
    Their containers ([Balance], [HLR], [Message], ...) are declared in files
    that are not part of the sources at hand; the methods use nothing of a
    container but its zero value and its decoder, so the container types are
    parameters here. *)

Section Rest.

Context `{GoLib}.
Context {Balance HLR HLRList Message MessageList MMSMessage : Type}.
Context {VoiceMessage VoiceMessageList Verify : Type}.

Context `{!Zero Balance, !JSONUnmarshal Balance}.
Context `{!Zero HLR, !JSONUnmarshal HLR}.
Context `{!Zero HLRList, !JSONUnmarshal HLRList}.
Context `{!Zero Message, !JSONUnmarshal Message}.
Context `{!Zero MessageList, !JSONUnmarshal MessageList}.
Context `{!Zero MMSMessage, !JSONUnmarshal MMSMessage}.
Context `{!Zero VoiceMessage, !JSONUnmarshal VoiceMessage}.
Context `{!Zero VoiceMessageList, !JSONUnmarshal VoiceMessageList}.
Context `{!Zero Verify, !JSONUnmarshal Verify}.

(** [Balance] returns the balance information for the account that is
    associated with the access key. *)
Definition Client_Balance (c : Client)
  : M (option Balance * option Error) :=
  built <- createRequest c Get RestEndpoint (BalancePath)
             None ;;
  match built with
  | Err err => ret (None, Some err)
  | Ok req =>
      r <- request c (Some (zero : Balance)) req ;;
      let '(balance, err) := r in
      match err with
      | Some err =>
          if decide (err = ErrResponse) then ret (balance, Some err)
          else ret (None, Some err)
      | None => ret (balance, None)
      end
  end.

(** [HLR] looks up an existing HLR object for the specified id. *)
Definition Client_HLR (c : Client) (id : string)
  : M (option HLR * option Error) :=
  built <- createRequest c Get RestEndpoint (HLRPath +:+ "/" +:+ id)
             None ;;
  match built with
  | Err err => ret (None, Some err)
  | Ok req =>
      r <- request c (Some (zero : HLR)) req ;;
      let '(hlr, err) := r in
      match err with
      | Some err =>
          if decide (err = ErrResponse) then ret (hlr, Some err)
          else ret (None, Some err)
      | None => ret (hlr, None)
      end
  end.

(** [HLRs] lists all HLR objects. *)
Definition Client_HLRs (c : Client)
  : M (option HLRList * option Error) :=
  built <- createRequest c Get RestEndpoint (HLRPath)
             None ;;
  match built with
  | Err err => ret (None, Some err)
  | Ok req =>
      r <- request c (Some (zero : HLRList)) req ;;
      let '(hlrList, err) := r in
      match err with
      | Some err =>
          if decide (err = ErrResponse) then ret (hlrList, Some err)
          else ret (None, Some err)
      | None => ret (hlrList, None)
      end
  end.

(** [NewHLR]: the parameters are the map literal with the keys [msisdn] and
    [reference]. *)
Definition Client_NewHLR (c : Client) (msisdn reference : string)
  : M (option HLR * option Error) :=
  built <- createRequest c Post RestEndpoint (HLRPath)
             (Some (<["msisdn" := [msisdn]]> (<["reference" := [reference]]> ∅))) ;;
  match built with
  | Err err => ret (None, Some err)
  | Ok req =>
      r <- request c (Some (zero : HLR)) req ;;
      let '(hlr, err) := r in
      match err with
      | Some err =>
          if decide (err = ErrResponse) then ret (hlr, Some err)
          else ret (None, Some err)
      | None => ret (hlr, None)
      end
  end.

(** [Message] retrieves the information of an existing Message. *)
Definition Client_Message (c : Client) (id : string)
  : M (option Message * option Error) :=
  built <- createRequest c Get RestEndpoint (MessagePath +:+ "/" +:+ id)
             None ;;
  match built with
  | Err err => ret (None, Some err)
  | Ok req =>
      r <- request c (Some (zero : Message)) req ;;
      let '(message, err) := r in
      match err with
      | Some err =>
          if decide (err = ErrResponse) then ret (message, Some err)
          else ret (None, Some err)
      | None => ret (message, None)
      end
  end.

(** [Messages] retrieves all messages of the user. *)
Definition Client_Messages (c : Client)
  : M (option MessageList * option Error) :=
  built <- createRequest c Get RestEndpoint (MessagePath)
             None ;;
  match built with
  | Err err => ret (None, Some err)
  | Ok req =>
      r <- request c (Some (zero : MessageList)) req ;;
      let '(messageList, err) := r in
      match err with
      | Some err =>
          if decide (err = ErrResponse) then ret (messageList, Some err)
          else ret (None, Some err)
      | None => ret (messageList, None)
      end
  end.

(** [MMSMessage] retrieves the information of an existing MmsMessage. *)
Definition Client_MMSMessage (c : Client) (id : string)
  : M (option MMSMessage * option Error) :=
  built <- createRequest c Get RestEndpoint (MMSPath +:+ "/" +:+ id)
             None ;;
  match built with
  | Err err => ret (None, Some err)
  | Ok req =>
      r <- request c (Some (zero : MMSMessage)) req ;;
      let '(mmsMessage, err) := r in
      match err with
      | Some err =>
          if decide (err = ErrResponse) then ret (mmsMessage, Some err)
          else ret (None, Some err)
      | None => ret (mmsMessage, None)
      end
  end.

(** [VoiceMessage] retrieves the information of an existing VoiceMessage. *)
Definition Client_VoiceMessage (c : Client) (id : string)
  : M (option VoiceMessage * option Error) :=
  built <- createRequest c Get RestEndpoint (VoiceMessagePath +:+ "/" +:+ id)
             None ;;
  match built with
  | Err err => ret (None, Some err)
  | Ok req =>
      r <- request c (Some (zero : VoiceMessage)) req ;;
      let '(message, err) := r in
      match err with
      | Some err =>
          if decide (err = ErrResponse) then ret (message, Some err)
          else ret (None, Some err)
      | None => ret (message, None)
      end
  end.

(** [VoiceMessages] retrieves all VoiceMessages of the user. *)
Definition Client_VoiceMessages (c : Client)
  : M (option VoiceMessageList * option Error) :=
  built <- createRequest c Get RestEndpoint (VoiceMessagePath)
             None ;;
  match built with
  | Err err => ret (None, Some err)
  | Ok req =>
      r <- request c (Some (zero : VoiceMessageList)) req ;;
      let '(messageList, err) := r in
      match err with
      | Some err =>
          if decide (err = ErrResponse) then ret (messageList, Some err)
          else ret (None, Some err)
      | None => ret (messageList, None)
      end
  end.

(** [VerifyToken]: the token goes into the query string of the path. *)
Definition Client_VerifyToken (c : Client) (id token : string)
  : M (option Verify * option Error) :=
  built <- createRequest c Get RestEndpoint (VerifyPath +:+ "/" +:+ id +:+ "?" +:+ url.Encode (url.Set_ ∅ "token" token))
             None ;;
  match built with
  | Err err => ret (None, Some err)
  | Ok req =>
      r <- request c (Some (zero : Verify)) req ;;
      let '(verify, err) := r in
      match err with
      | Some err =>
          if decide (err = ErrResponse) then ret (verify, Some err)
          else ret (None, Some err)
      | None => ret (verify, None)
      end
  end.

End Rest.

(** *** Vocabulary of the statements about the builders and the methods *)

(** The request [http.NewRequest] hands to the builders. *)
Definition fresh_request (method : string) (u : http.URL) (body : option string)
  : http.Request :=
  {| http.Method := if String.eqb method "" then "GET" else method;
     http.Url := u; http.Headers := ∅; http.Body := body |}.

(** The bytes that separate the pieces of a query and the two halves of a
    piece. *)
Definition separator (sep : ascii) : Prop :=
  sep = "&"%char \/ sep = "="%char \/ sep = ";"%char.

(** A single-resource method [method], whose request is built by [build] and
    whose container has the list [data]: whenever the dispatcher comes back
    with no error or with [ErrResponse], the method takes element zero of the
    decoded list. It returns that element when the list has one and panics
    when the list is empty. *)
Definition indexes_zero {L A : Type} `{!GoLib, !JSONUnmarshal L, !Zero L}
    (c : Client) (data : L -> list A)
    (build : M (result http.Request)) (method : M (option A * option Error)) : Prop :=
  forall (req : http.Request) (l : L) (err : option Error),
    value build = Val (Ok req) ->
    value (request c (Some zero) req) = Val (Some l, err) ->
    err = None \/ err = Some ErrResponse ->
    match data l with
    | [] => exists msg, value method = Panic msg
    | x :: _ => exists e, value method = Val (Some x, e)
    end.

(** What a single-resource method does with an [ErrResponse] of the
    dispatcher: it returns element zero of the decoded list (or panics on an
    empty list), and [returned] is the error it returns with it. *)
Definition single_on_ErrResponse {L A : Type} `{!GoLib, !JSONUnmarshal L, !Zero L}
    (c : Client) (data : L -> list A)
    (build : M (result http.Request)) (method : M (option A * option Error))
    (returned : option Error) : Prop :=
  forall (req : http.Request) (l : L),
    value build = Val (Ok req) ->
    value (request c (Some zero) req) = Val (Some l, Some ErrResponse) ->
    match data l with
    | [] => exists msg, value method = Panic msg
    | x :: _ => value method = Val (Some x, returned)
    end.

(** What a list method does with an [ErrResponse] of the dispatcher: it
    returns the decoded list, and [returned] is the error it returns with
    it. *)
Definition list_on_ErrResponse {L : Type} `{!GoLib, !JSONUnmarshal L, !Zero L}
    (c : Client) (build : M (result http.Request)) (method : M (option L * option Error))
    (returned : option Error) : Prop :=
  forall (req : http.Request) (l : L),
    value build = Val (Ok req) ->
    value (request c (Some zero) req) = Val (Some l, Some ErrResponse) ->
    value method = Val (Some l, returned).

(** *** Vocabulary of the statements about errors, effects and sent requests *)

(** The events that hand a request to the transport. *)
Definition is_send (e : event) : bool :=
  match e with EvSend _ => true | _ => false end.

(** What [request] returns, read off the transport's answer: the container
    as the call leaves it and the error. *)
Definition request_outcome {V} `{!JSONUnmarshal V} (c : Client) (v : option V)
    (req : http.Request) : option V * option Error :=
  match http.Do (HTTPClient c) req with
  | inl cause => (v, Some (TransportError cause))
  | inr response =>
      match ioutil_ReadAll (http.ResponseBody response) with
      | Err err => (v, Some err)
      | Ok body =>
          if http.StatusCode response =? 500 then (v, Some ErrUnexpectedResponse)
          else
            match v with
            | Some x =>
                (Some (fst (json_Unmarshal body x)),
                 match snd (json_Unmarshal body x) with
                 | Some msg => Some (UnmarshalError msg)
                 | None => classify (http.StatusCode response)
                 end)
            | None => (None, classify (http.StatusCode response))
            end
      end
  end.

(** The pairs of a query as the debug log shows them: keys and values as
    they are, [=] between the two and [&] between pairs. *)
Fixpoint raw_pairs (ps : list (string * string)) : string :=
  match ps with
  | [] => ""
  | p :: rest =>
      match rest with
      | [] => fst p +:+ "=" +:+ snd p
      | _ => fst p +:+ "=" +:+ snd p +:+ "&" +:+ raw_pairs rest
      end
  end.

(** A method's result without its container: whether a container came back
    (not nil) and the error. *)
Definition erase {R} (m : M (option R * option Error)) : M (bool * option Error) :=
  (match value m with
   | Val (r, e) => Val (bool_decide (is_Some r), e)
   | Panic msg => Panic msg
   end, trace m).

(** The error of a dispatch. *)
Definition error_of {L} (m : M (option L * option Error)) : outcome (option Error) :=
  match value m with
  | Val (_, e) => Val e
  | Panic msg => Panic msg
  end.

(** The sixteen voice methods that return a container, with their
    arguments. *)
Inductive voice_method : Type :=
  | VCallFlow (id : string)
  | VCallFlows
  | VNewCallFlow (params : option CallFlowParams)
  | VCall (id : string)
  | VCalls
  | VNewCall (params : option CallParams)
  | VLeg (callID legID : string)
  | VLegs (callID : string)
  | VRecording (callID legID recordingID : string)
  | VRecordings (callID legID : string)
  | VTranscription (callID legID recordingID transcriptionID : string)
  | VTranscriptions (callID legID recordingID : string)
  | VNewTranscriptionRequest (callID legID recordingID : string)
  | VWebhook (id : string)
  | VWebhooks
  | VNewWebhook (params : option WebhookParams).

(** A list method hands back the whole decoded container when the dispatcher
    returns no error or [ErrResponse]. *)
Definition returns_whole_list {L : Type} `{!GoLib, !JSONUnmarshal L, !Zero L}
    (c : Client) (build : M (result http.Request))
    (method : M (option L * option Error)) : Prop :=
  forall (req : http.Request) (l : L) (err : option Error),
    value build = Val (Ok req) ->
    value (request c (Some zero) req) = Val (Some l, err) ->
    err = None \/ err = Some ErrResponse ->
    exists e, value method = Val (Some l, e).

(** The three outcomes of a REST method: the builder's error; the decoded
    container with no error or with [ErrResponse]; nil with any other
    error. *)
Definition rest_outcome {L : Type} `{!GoLib, !JSONUnmarshal L, !Zero L}
    (c : Client) (build : M (result http.Request))
    (method : M (option L * option Error)) : Prop :=
  (forall err, value build = Val (Err err) -> value method = Val (None, Some err))
  /\ forall (req : http.Request) (l : option L) (err : option Error),
       value build = Val (Ok req) ->
       value (request c (Some zero) req) = Val (l, err) ->
       value method
       = Val match err with
             | None => (l, None)
             | Some e => if decide (e = ErrResponse) then (l, Some e) else (None, Some e)
             end.

Section VoiceTable.

Context `{GoLib}.
Context `{!JSONUnmarshal CallFlowList, !JSONUnmarshal CallList, !JSONUnmarshal LegList}.
Context `{!JSONUnmarshal RecordingList, !JSONUnmarshal TranscriptionList}.
Context `{!JSONUnmarshal WebhookList}.
Context `{!JSONMarshal CallFlowParams, !JSONMarshal CallParams, !JSONMarshal WebhookParams}.

(** The builder call each voice method starts with. *)
Definition voice_build (c : Client) (m : voice_method) : M (result http.Request) :=
  match m with
  | VCallFlow id => createRequest c Get VoiceEndpoint (CallFlowPath +:+ "/" +:+ id) None
  | VCallFlows => createRequest c Get VoiceEndpoint CallFlowPath None
  | VNewCallFlow params => createJSONRequest c Post VoiceEndpoint CallFlowPath params
  | VCall id => createRequest c Get VoiceEndpoint (CallPath +:+ "/" +:+ id) None
  | VCalls => createRequest c Get VoiceEndpoint CallPath None
  | VNewCall params => createJSONRequest c Post VoiceEndpoint CallPath params
  | VLeg callID legID =>
      createRequest c Get VoiceEndpoint
        (CallPath +:+ "/" +:+ callID +:+ "/" +:+ LegPath +:+ "/" +:+ legID) None
  | VLegs callID =>
      createRequest c Get VoiceEndpoint (CallPath +:+ "/" +:+ callID +:+ "/" +:+ LegPath) None
  | VRecording callID legID recordingID =>
      createRequest c Get VoiceEndpoint
        (CallPath +:+ "/" +:+ callID +:+ "/" +:+ LegPath +:+ "/" +:+ legID
           +:+ "/" +:+ RecordingPath +:+ "/" +:+ recordingID) None
  | VRecordings callID legID =>
      createRequest c Get VoiceEndpoint
        (CallPath +:+ "/" +:+ callID +:+ "/" +:+ LegPath +:+ "/" +:+ legID
           +:+ "/" +:+ RecordingPath) None
  | VTranscription callID legID recordingID transcriptionID =>
      createRequest c Get VoiceEndpoint
        (CallPath +:+ "/" +:+ callID +:+ "/" +:+ LegPath +:+ "/" +:+ legID
           +:+ "/" +:+ RecordingPath +:+ "/" +:+ recordingID
           +:+ "/" +:+ TranscriptionPath +:+ "/" +:+ transcriptionID) None
  | VTranscriptions callID legID _ =>
      createRequest c Get VoiceEndpoint
        (CallPath +:+ "/" +:+ callID +:+ "/" +:+ LegPath +:+ "/" +:+ legID
           +:+ "/" +:+ RecordingPath +:+ "/" +:+ TranscriptionPath) None
  | VNewTranscriptionRequest callID legID _ =>
      createJSONRequest c Post VoiceEndpoint
        (CallPath +:+ "/" +:+ callID +:+ "/" +:+ LegPath +:+ "/" +:+ legID
           +:+ "/" +:+ RecordingPath +:+ "/" +:+ TranscriptionPath) (@None Empty_set)
  | VWebhook id => createRequest c Get VoiceEndpoint (WebhookPath +:+ "/" +:+ id) None
  | VWebhooks => createRequest c Get VoiceEndpoint WebhookPath None
  | VNewWebhook params => createJSONRequest c Post VoiceEndpoint WebhookPath params
  end.

(** The method itself, its container erased. *)
Definition voice_run (c : Client) (m : voice_method) : M (bool * option Error) :=
  match m with
  | VCallFlow id => erase (Client_CallFlow c id)
  | VCallFlows => erase (Client_CallFlows c)
  | VNewCallFlow params => erase (Client_NewCallFlow c params)
  | VCall id => erase (Client_Call c id)
  | VCalls => erase (Client_Calls c)
  | VNewCall params => erase (Client_NewCall c params)
  | VLeg callID legID => erase (Client_Leg c callID legID)
  | VLegs callID => erase (Client_Legs c callID)
  | VRecording callID legID recordingID => erase (Client_Recording c callID legID recordingID)
  | VRecordings callID legID => erase (Client_Recordings c callID legID)
  | VTranscription callID legID recordingID transcriptionID =>
      erase (Client_Transcription c callID legID recordingID transcriptionID)
  | VTranscriptions callID legID recordingID =>
      erase (Client_Transcriptions c callID legID recordingID)
  | VNewTranscriptionRequest callID legID recordingID =>
      erase (Client_NewTranscriptionRequest c callID legID recordingID)
  | VWebhook id => erase (Client_Webhook c id)
  | VWebhooks => erase (Client_Webhooks c)
  | VNewWebhook params => erase (Client_NewWebhook c params)
  end.

(** The error of the dispatch each method makes, into its own container. *)
Definition voice_dispatch (c : Client) (m : voice_method) (req : http.Request)
  : outcome (option Error) :=
  match m with
  | VCallFlow _ | VCallFlows | VNewCallFlow _ =>
      error_of (request c (Some (zero : CallFlowList)) req)
  | VCall _ | VCalls | VNewCall _ => error_of (request c (Some (zero : CallList)) req)
  | VLeg _ _ | VLegs _ => error_of (request c (Some (zero : LegList)) req)
  | VRecording _ _ _ | VRecordings _ _ =>
      error_of (request c (Some (zero : RecordingList)) req)
  | VTranscription _ _ _ _ | VTranscriptions _ _ _ | VNewTranscriptionRequest _ _ _ =>
      error_of (request c (Some (zero : TranscriptionList)) req)
  | VWebhook _ | VWebhooks | VNewWebhook _ =>
      error_of (request c (Some (zero : WebhookList)) req)
  end.

End VoiceTable.

(** ** encoding/json: a reference decoder and encoder

    The theorems about the client hold for every decoder and encoder (the
    classes [JSONUnmarshal] and [JSONMarshal]). The instances below are the
    ones the worked examples run on. They follow [encoding/json] on the JSON
    texts of the voice API: objects, arrays, strings with the one-letter
    escapes, numbers kept as their literal, [true], [false], [null]; keys are
    matched to fields without regard to case, unknown keys are skipped, a
    value of the wrong kind is a type error that leaves the field as it was.
    Outside that subset ([\u] escapes, UTF-8 validation, calendar checks on
    timestamps, rounding of floats) they do not claim to agree with Go. *)

Module json.

#[local] Set Warnings "-register-all".

Inductive value : Type :=
  | Null
  | Bool (b : bool)
  | Number (lit : string)
  | Str (s : string)
  | Array (elems : list value)
  | Object (members : list (string * value)).

Definition quote : ascii := ascii_of_N 34.
Definition backslash : ascii := ascii_of_N 92.

(** Text written with apostrophes for the double quotes of JSON. *)
Fixpoint text (s : string) : string :=
  match s with
  | EmptyString => ""
  | String c t => String (if Ascii.eqb c "'" then quote else c) (text t)
  end.

Definition is_space (c : ascii) : bool :=
  let n := Bytes.code c in
  (n =? 32)%N || (n =? 9)%N || (n =? 10)%N || (n =? 13)%N.

Fixpoint skip (s : string) : string :=
  match s with
  | String c t => if is_space c then skip t else s
  | EmptyString => ""
  end.

Definition unescape (e : ascii) : option ascii :=
  if Ascii.eqb e quote then Some quote
  else if Ascii.eqb e backslash then Some backslash
  else if Ascii.eqb e "/" then Some "/"%char
  else if Ascii.eqb e "b" then Some (ascii_of_N 8)
  else if Ascii.eqb e "f" then Some (ascii_of_N 12)
  else if Ascii.eqb e "n" then Some (ascii_of_N 10)
  else if Ascii.eqb e "r" then Some (ascii_of_N 13)
  else if Ascii.eqb e "t" then Some (ascii_of_N 9)
  else None.

(** The rest of a string literal after its opening quote, and what follows. *)
Fixpoint scanString (s : string) : option (string * string) :=
  match s with
  | EmptyString => None
  | String c t =>
      if Ascii.eqb c quote then Some ("", t)
      else if Ascii.eqb c backslash then
        match t with
        | String e t' =>
            match unescape e, scanString t' with
            | Some c', Some (str, rest) => Some (String c' str, rest)
            | _, _ => None
            end
        | EmptyString => None
        end
      else if (Bytes.code c <? 32)%N then None
      else
        match scanString t with
        | Some (str, rest) => Some (String c str, rest)
        | None => None
        end
  end.

Fixpoint span (p : ascii -> bool) (s : string) : string * string :=
  match s with
  | String c t =>
      if p c then let '(a, b) := span p t in (String c a, b) else ("", s)
  | EmptyString => ("", "")
  end.

(** At least one digit, then the rest. *)
Definition digits1 (s : string) : option string :=
  match span Bytes.is_digit s with
  | (EmptyString, _) => None
  | (_, rest) => Some rest
  end.

Definition dropIf (p : ascii -> bool) (s : string) : string :=
  match s with
  | String c t => if p c then t else s
  | EmptyString => ""
  end.

(** The grammar of a JSON number. *)
Definition validNumber (lit : string) : bool :=
  let s := dropIf (Ascii.eqb "-") lit in
  let afterInt :=
    match s with
    | String c t => if Ascii.eqb c "0" then Some t else digits1 s
    | EmptyString => None
    end in
  let afterFrac :=
    match afterInt with
    | Some (String c t) => if Ascii.eqb c "." then digits1 t else afterInt
    | other => other
    end in
  let afterExp :=
    match afterFrac with
    | Some (String c t) =>
        if Ascii.eqb c "e" || Ascii.eqb c "E"
        then digits1 (dropIf (fun d => Ascii.eqb d "+" || Ascii.eqb d "-") t)
        else afterFrac
    | other => other
    end in
  match afterExp with
  | Some EmptyString => true
  | _ => false
  end.

Definition numberByte (c : ascii) : bool :=
  Bytes.is_digit c || Bytes.mem c "+-.eE".

Fixpoint dropPrefix (p s : string) : option string :=
  match p, s with
  | EmptyString, _ => Some s
  | String a p', String b s' => if Ascii.eqb a b then dropPrefix p' s' else None
  | String _ _, EmptyString => None
  end.

Definition scanLiteral (s : string) : option (value * string) :=
  match dropPrefix "true" s, dropPrefix "false" s, dropPrefix "null" s with
  | Some rest, _, _ => Some (Bool true, rest)
  | _, Some rest, _ => Some (Bool false, rest)
  | _, _, Some rest => Some (Null, rest)
  | _, _, _ =>
      let '(lit, rest) := span numberByte s in
      if validNumber lit then Some (Number lit, rest) else None
  end.

(** Recursive descent; every call uses up one unit of [fuel] and at least
    one byte of the text. *)
Fixpoint parseValue (fuel : nat) (s : string) : option (value * string) :=
  match fuel with
  | O => None
  | S fuel =>
      match skip s with
      | EmptyString => None
      | String c t =>
          if Ascii.eqb c quote then
            match scanString t with
            | Some (str, rest) => Some (Str str, rest)
            | None => None
            end
          else if Ascii.eqb c "{" then
            match skip t with
            | String d rest =>
                if Ascii.eqb d "}" then Some (Object [], rest)
                else match parseMembers fuel t with
                     | Some (ms, rest) => Some (Object ms, rest)
                     | None => None
                     end
            | EmptyString => None
            end
          else if Ascii.eqb c "[" then
            match skip t with
            | String d rest =>
                if Ascii.eqb d "]" then Some (Array [], rest)
                else match parseElems fuel t with
                     | Some (vs, rest) => Some (Array vs, rest)
                     | None => None
                     end
            | EmptyString => None
            end
          else scanLiteral (String c t)
      end
  end
with parseMembers (fuel : nat) (s : string) : option (list (string * value) * string) :=
  match fuel with
  | O => None
  | S fuel =>
      match skip s with
      | String q t =>
          if Ascii.eqb q quote then
            match scanString t with
            | Some (k, rest) =>
                match skip rest with
                | String colon rest =>
                    if Ascii.eqb colon ":" then
                      match parseValue fuel rest with
                      | Some (v, rest) =>
                          match skip rest with
                          | String d rest =>
                              if Ascii.eqb d "," then
                                match parseMembers fuel rest with
                                | Some (ms, rest) => Some ((k, v) :: ms, rest)
                                | None => None
                                end
                              else if Ascii.eqb d "}" then Some ([(k, v)], rest)
                              else None
                          | EmptyString => None
                          end
                      | None => None
                      end
                    else None
                | EmptyString => None
                end
            | None => None
            end
          else None
      | EmptyString => None
      end
  end
with parseElems (fuel : nat) (s : string) : option (list value * string) :=
  match fuel with
  | O => None
  | S fuel =>
      match parseValue fuel s with
      | Some (v, rest) =>
          match skip rest with
          | String d rest =>
              if Ascii.eqb d "," then
                match parseElems fuel rest with
                | Some (vs, rest) => Some (v :: vs, rest)
                | None => None
                end
              else if Ascii.eqb d "]" then Some ([v], rest)
              else None
          | EmptyString => None
          end
      | None => None
      end
  end.

(** A whole text: one value and nothing but blanks after it. *)
Definition parse (s : string) : option value :=
  match parseValue (S (String.length s)) s with
  | Some (v, rest) => match skip rest with EmptyString => Some v | _ => None end
  | None => None
  end.

(** *** Decoding into Go values *)

Definition typeError : string := "json: cannot unmarshal value into Go value".
Definition syntaxError : string := "json: invalid character or unexpected end of JSON input".

(** The first error met is the one reported. *)
Definition first (e1 e2 : option string) : option string :=
  match e1 with Some _ => e1 | None => e2 end.

Class Decode (A : Type) : Type := decode : value -> A -> A * option string.

#[global] Instance string_zero : Zero string := "".
#[global] Instance Z_zero : Zero Z := 0.
#[global] Instance float32_zero : Zero float32 := {| float32_text := "0" |}.
#[global] Instance Time_zero : Zero Time := {| Time_text := "0001-01-01T00:00:00Z" |}.
#[global] Instance option_zero {A} : Zero (option A) := (None : option A).
#[global] Instance list_zero {A} : Zero (list A) := ([] : list A).
#[global] Instance gmap_zero {A} : Zero (gmap string A) := (∅ : gmap string A).

#[global] Instance string_decode : Decode string := fun j old =>
  match j with
  | Null => (old, None)
  | Str s => (s, None)
  | _ => (old, Some typeError)
  end.

Fixpoint digitsValue (acc : Z) (s : string) : option Z :=
  match s with
  | EmptyString => Some acc
  | String c t =>
      if Bytes.is_digit c
      then digitsValue (acc * 10 + (Z.of_N (Bytes.code c) - 48)) t
      else None
  end.

(** [strconv.ParseInt(lit, 10, 64)]. *)
Definition parseInt (lit : string) : option Z :=
  let n :=
    match lit with
    | String c t => if Ascii.eqb c "-" then Z.opp <$> digitsValue 0 t
                    else digitsValue 0 lit
    | EmptyString => None
    end in
  match n with
  | Some n => if (- 2 ^ 63 <=? n) && (n <? 2 ^ 63) then Some n else None
  | None => None
  end.

#[global] Instance int_decode : Decode Z := fun j old =>
  match j with
  | Null => (old, None)
  | Number lit =>
      match parseInt lit with
      | Some n => (n, None)
      | None => (old, Some typeError)
      end
  | _ => (old, Some typeError)
  end.

#[global] Instance float32_decode : Decode float32 := fun j old =>
  match j with
  | Null => (old, None)
  | Number lit => ({| float32_text := lit |}, None)
  | _ => (old, Some typeError)
  end.

(** Two digits with a value below [bound], then the rest. *)
Definition twoDigits (lo bound : Z) (s : string) : option string :=
  match s with
  | String a (String b rest) =>
      match digitsValue 0 (String a (String b "")) with
      | Some n => if (lo <=? n) && (n <? bound) then Some rest else None
      | None => None
      end
  | _ => None
  end.

Definition expect (c : ascii) (s : option string) : option string :=
  match s with
  | Some (String d rest) => if Ascii.eqb c d then Some rest else None
  | _ => None
  end.

(** The shape [time.Time.UnmarshalJSON] asks for:
    [YYYY-MM-DDTHH:MM:SS], an optional fraction, then [Z] or an offset. *)
Definition validRFC3339 (s : string) : bool :=
  let afterDate :=
    s1 ← twoDigits 0 100 s; s2 ← twoDigits 0 100 s1;
    s3 ← expect "-" (Some s2); s4 ← twoDigits 1 13 s3;
    s5 ← expect "-" (Some s4); twoDigits 1 32 s5 in
  let afterTime :=
    s1 ← expect "T" afterDate; s2 ← twoDigits 0 24 s1;
    s3 ← expect ":" (Some s2); s4 ← twoDigits 0 60 s3;
    s5 ← expect ":" (Some s4); twoDigits 0 60 s5 in
  let afterFrac :=
    match afterTime with
    | Some (String c t) => if Ascii.eqb c "." then digits1 t else afterTime
    | other => other
    end in
  match afterFrac with
  | Some (String c t) =>
      if Ascii.eqb c "Z" then String.eqb t ""
      else if Ascii.eqb c "+" || Ascii.eqb c "-" then
        match (s1 ← twoDigits 0 24 t; s2 ← expect ":" (Some s1); twoDigits 0 60 s2) with
        | Some EmptyString => true
        | _ => false
        end
      else false
  | _ => false
  end.

#[global] Instance Time_decode : Decode Time := fun j old =>
  match j with
  | Null => (old, None)
  | Str s => if validRFC3339 s then ({| Time_text := s |}, None)
             else (old, Some "parsing time: not in RFC 3339 format")
  | _ => (old, Some "Time.UnmarshalJSON: input is not a JSON string")
  end.

(** A pointer: [null] makes it nil, anything else is decoded into what it
    points to, allocated first when it is nil. *)
#[global] Instance ptr_decode {A} `{Decode A, Zero A} : Decode (option A) := fun j old =>
  match j with
  | Null => (None, None)
  | _ => let '(x, e) := decode j (default zero old) in (Some x, e)
  end.

(** A map keeps its entries and receives each member, decoded from the zero
    value of the element type. *)
#[global] Instance map_decode {A} `{Decode A, Zero A} : Decode (gmap string A) := fun j old =>
  match j with
  | Null => (∅, None)
  | Object ms =>
      foldl (fun acc kv =>
               let '(x, e) := decode (snd kv) zero in
               (<[fst kv := x]> (fst acc), first (snd acc) e))
            (old, None) ms
  | _ => (old, Some typeError)
  end.

(** A slice is reset and receives each element, decoded from the zero value. *)
#[global] Instance slice_decode {A} `{Decode A, Zero A} : Decode (list A) := fun j old =>
  match j with
  | Null => ([], None)
  | Array vs =>
      foldl (fun acc v =>
               let '(x, e) := decode v zero in
               ((fst acc ++ [x])%list, first (snd acc) e))
            ([], None) vs
  | _ => (old, Some typeError)
  end.

Fixpoint lower (s : string) : string :=
  match s with
  | EmptyString => ""
  | String c t => String (Bytes.to_lower c) (lower t)
  end.

(** [strings.EqualFold] on ASCII. *)
Definition foldEq (a b : string) : bool := String.eqb (lower a) (lower b).

(** The members of an object that name one field, decoded into it in turn. *)
Definition field {A} `{Decode A} (ms : list (string * value)) (name : string) (old : A)
  : A * option string :=
  foldl (fun acc kv =>
           if foldEq (fst kv) name
           then let '(x, e) := decode (snd kv) (fst acc) in (x, first (snd acc) e)
           else acc)
        (old, None) ms.

(** Structs: each field takes the members that name it; [null] and the
    keys that name no field change nothing. *)

#[global] Instance Step_zero : Zero Step :=
  {| Step_ID := zero;
     Step_Action := zero;
     Step_Options := zero |}.

#[global] Instance Step_decode : Decode Step := fun j old =>
  match j with
  | Null => (old, None)
  | Object ms =>
      let '(x0, e0) := field ms "ID" (Step_ID old) in
      let '(x1, e1) := field ms "Action" (Step_Action old) in
      let '(x2, e2) := field ms "Options" (Step_Options old) in
      ({| Step_ID := x0;
          Step_Action := x1;
          Step_Options := x2 |},
       foldr first None [e0; e1; e2])
  | _ => (old, Some typeError)
  end.

#[global] Instance CallFlow_zero : Zero CallFlow :=
  {| CallFlow_ID := zero;
     CallFlow_Title := zero;
     CallFlow_Steps := zero;
     CallFlow_CreatedAt := zero;
     CallFlow_UpdatedAt := zero |}.

#[global] Instance CallFlow_decode : Decode CallFlow := fun j old =>
  match j with
  | Null => (old, None)
  | Object ms =>
      let '(x0, e0) := field ms "ID" (CallFlow_ID old) in
      let '(x1, e1) := field ms "Title" (CallFlow_Title old) in
      let '(x2, e2) := field ms "Steps" (CallFlow_Steps old) in
      let '(x3, e3) := field ms "CreatedAt" (CallFlow_CreatedAt old) in
      let '(x4, e4) := field ms "UpdatedAt" (CallFlow_UpdatedAt old) in
      ({| CallFlow_ID := x0;
          CallFlow_Title := x1;
          CallFlow_Steps := x2;
          CallFlow_CreatedAt := x3;
          CallFlow_UpdatedAt := x4 |},
       foldr first None [e0; e1; e2; e3; e4])
  | _ => (old, Some typeError)
  end.

#[global] Instance CallFlowList_decode : Decode CallFlowList := fun j old =>
  match j with
  | Null => (old, None)
  | Object ms =>
      let '(x0, e0) := field ms "_links" (CallFlowList_Links old) in
      let '(x1, e1) := field ms "Pagination" (CallFlowList_Pagination old) in
      let '(x2, e2) := field ms "Data" (CallFlowList_Data old) in
      ({| CallFlowList_Links := x0;
          CallFlowList_Pagination := x1;
          CallFlowList_Data := x2 |},
       foldr first None [e0; e1; e2])
  | _ => (old, Some typeError)
  end.

#[global] Instance Call_zero : Zero Call :=
  {| Call_ID := zero;
     Call_NumberID := zero;
     Call_Status := zero;
     Call_Source := zero;
     Call_Destination := zero;
     Call_CreatedAt := zero;
     Call_UpdatedAt := zero;
     Call_EndedAt := zero;
     Call_Links := zero |}.

#[global] Instance Call_decode : Decode Call := fun j old =>
  match j with
  | Null => (old, None)
  | Object ms =>
      let '(x0, e0) := field ms "ID" (Call_ID old) in
      let '(x1, e1) := field ms "NumberID" (Call_NumberID old) in
      let '(x2, e2) := field ms "Status" (Call_Status old) in
      let '(x3, e3) := field ms "Source" (Call_Source old) in
      let '(x4, e4) := field ms "Destination" (Call_Destination old) in
      let '(x5, e5) := field ms "CreatedAt" (Call_CreatedAt old) in
      let '(x6, e6) := field ms "UpdatedAt" (Call_UpdatedAt old) in
      let '(x7, e7) := field ms "EndedAt" (Call_EndedAt old) in
      let '(x8, e8) := field ms "_links" (Call_Links old) in
      ({| Call_ID := x0;
          Call_NumberID := x1;
          Call_Status := x2;
          Call_Source := x3;
          Call_Destination := x4;
          Call_CreatedAt := x5;
          Call_UpdatedAt := x6;
          Call_EndedAt := x7;
          Call_Links := x8 |},
       foldr first None [e0; e1; e2; e3; e4; e5; e6; e7; e8])
  | _ => (old, Some typeError)
  end.

#[global] Instance CallList_decode : Decode CallList := fun j old =>
  match j with
  | Null => (old, None)
  | Object ms =>
      let '(x0, e0) := field ms "Data" (CallList_Data old) in
      let '(x1, e1) := field ms "_links" (CallList_Links old) in
      let '(x2, e2) := field ms "Pagination" (CallList_Pagination old) in
      ({| CallList_Data := x0;
          CallList_Links := x1;
          CallList_Pagination := x2 |},
       foldr first None [e0; e1; e2])
  | _ => (old, Some typeError)
  end.

#[global] Instance Leg_zero : Zero Leg :=
  {| Leg_ID := zero;
     Leg_CallID := zero;
     Leg_Source := zero;
     Leg_Destination := zero;
     Leg_Status := zero;
     Leg_Direction := zero;
     Leg_Cost := zero;
     Leg_Currency := zero;
     Leg_Duration := zero;
     Leg_CreatedAt := zero;
     Leg_UpdatedAt := zero;
     Leg_EndedAt := zero |}.

#[global] Instance Leg_decode : Decode Leg := fun j old =>
  match j with
  | Null => (old, None)
  | Object ms =>
      let '(x0, e0) := field ms "ID" (Leg_ID old) in
      let '(x1, e1) := field ms "CallID" (Leg_CallID old) in
      let '(x2, e2) := field ms "Source" (Leg_Source old) in
      let '(x3, e3) := field ms "Destination" (Leg_Destination old) in
      let '(x4, e4) := field ms "Status" (Leg_Status old) in
      let '(x5, e5) := field ms "Direction" (Leg_Direction old) in
      let '(x6, e6) := field ms "Cost" (Leg_Cost old) in
      let '(x7, e7) := field ms "Currency" (Leg_Currency old) in
      let '(x8, e8) := field ms "Duration" (Leg_Duration old) in
      let '(x9, e9) := field ms "CreatedAt" (Leg_CreatedAt old) in
      let '(x10, e10) := field ms "UpdatedAt" (Leg_UpdatedAt old) in
      let '(x11, e11) := field ms "EndedAt" (Leg_EndedAt old) in
      ({| Leg_ID := x0;
          Leg_CallID := x1;
          Leg_Source := x2;
          Leg_Destination := x3;
          Leg_Status := x4;
          Leg_Direction := x5;
          Leg_Cost := x6;
          Leg_Currency := x7;
          Leg_Duration := x8;
          Leg_CreatedAt := x9;
          Leg_UpdatedAt := x10;
          Leg_EndedAt := x11 |},
       foldr first None [e0; e1; e2; e3; e4; e5; e6; e7; e8; e9; e10; e11])
  | _ => (old, Some typeError)
  end.

#[global] Instance LegList_decode : Decode LegList := fun j old =>
  match j with
  | Null => (old, None)
  | Object ms =>
      let '(x0, e0) := field ms "Data" (LegList_Data old) in
      let '(x1, e1) := field ms "_links" (LegList_Links old) in
      let '(x2, e2) := field ms "Pagination" (LegList_Pagination old) in
      ({| LegList_Data := x0;
          LegList_Links := x1;
          LegList_Pagination := x2 |},
       foldr first None [e0; e1; e2])
  | _ => (old, Some typeError)
  end.

#[global] Instance Recording_zero : Zero Recording :=
  {| Recording_ID := zero;
     Recording_Format := zero;
     Recording_LegID := zero;
     Recording_Status := zero;
     Recording_Duration := zero;
     Recording_CreatedAt := zero;
     Recording_UpdatedAt := zero;
     Recording_Links := zero |}.

#[global] Instance Recording_decode : Decode Recording := fun j old =>
  match j with
  | Null => (old, None)
  | Object ms =>
      let '(x0, e0) := field ms "ID" (Recording_ID old) in
      let '(x1, e1) := field ms "Format" (Recording_Format old) in
      let '(x2, e2) := field ms "LegID" (Recording_LegID old) in
      let '(x3, e3) := field ms "Status" (Recording_Status old) in
      let '(x4, e4) := field ms "Duration" (Recording_Duration old) in
      let '(x5, e5) := field ms "CreatedAt" (Recording_CreatedAt old) in
      let '(x6, e6) := field ms "UpdatedAt" (Recording_UpdatedAt old) in
      let '(x7, e7) := field ms "_links" (Recording_Links old) in
      ({| Recording_ID := x0;
          Recording_Format := x1;
          Recording_LegID := x2;
          Recording_Status := x3;
          Recording_Duration := x4;
          Recording_CreatedAt := x5;
          Recording_UpdatedAt := x6;
          Recording_Links := x7 |},
       foldr first None [e0; e1; e2; e3; e4; e5; e6; e7])
  | _ => (old, Some typeError)
  end.

#[global] Instance RecordingList_decode : Decode RecordingList := fun j old =>
  match j with
  | Null => (old, None)
  | Object ms =>
      let '(x0, e0) := field ms "Data" (RecordingList_Data old) in
      let '(x1, e1) := field ms "_links" (RecordingList_Links old) in
      let '(x2, e2) := field ms "Pagination" (RecordingList_Pagination old) in
      ({| RecordingList_Data := x0;
          RecordingList_Links := x1;
          RecordingList_Pagination := x2 |},
       foldr first None [e0; e1; e2])
  | _ => (old, Some typeError)
  end.

#[global] Instance Transcription_zero : Zero Transcription :=
  {| Transcription_ID := zero;
     Transcription_RecordingID := zero;
     Transcription_Error := zero;
     Transcription_CreatedAt := zero;
     Transcription_UpdatedAt := zero;
     Transcription_Links := zero |}.

#[global] Instance Transcription_decode : Decode Transcription := fun j old =>
  match j with
  | Null => (old, None)
  | Object ms =>
      let '(x0, e0) := field ms "ID" (Transcription_ID old) in
      let '(x1, e1) := field ms "RecordingID" (Transcription_RecordingID old) in
      let '(x2, e2) := field ms "Error" (Transcription_Error old) in
      let '(x3, e3) := field ms "CreatedAt" (Transcription_CreatedAt old) in
      let '(x4, e4) := field ms "UpdatedAt" (Transcription_UpdatedAt old) in
      let '(x5, e5) := field ms "_links" (Transcription_Links old) in
      ({| Transcription_ID := x0;
          Transcription_RecordingID := x1;
          Transcription_Error := x2;
          Transcription_CreatedAt := x3;
          Transcription_UpdatedAt := x4;
          Transcription_Links := x5 |},
       foldr first None [e0; e1; e2; e3; e4; e5])
  | _ => (old, Some typeError)
  end.

#[global] Instance TranscriptionList_decode : Decode TranscriptionList := fun j old =>
  match j with
  | Null => (old, None)
  | Object ms =>
      let '(x0, e0) := field ms "Data" (TranscriptionList_Data old) in
      let '(x1, e1) := field ms "_links" (TranscriptionList_Links old) in
      let '(x2, e2) := field ms "Pagination" (TranscriptionList_Pagination old) in
      ({| TranscriptionList_Data := x0;
          TranscriptionList_Links := x1;
          TranscriptionList_Pagination := x2 |},
       foldr first None [e0; e1; e2])
  | _ => (old, Some typeError)
  end.

#[global] Instance Webhook_zero : Zero Webhook :=
  {| Webhook_ID := zero;
     Webhook_URL := zero;
     Webhook_Token := zero;
     Webhook_CreatedAt := zero;
     Webhook_UpdatedAt := zero;
     Webhook_Links := zero |}.

#[global] Instance Webhook_decode : Decode Webhook := fun j old =>
  match j with
  | Null => (old, None)
  | Object ms =>
      let '(x0, e0) := field ms "ID" (Webhook_ID old) in
      let '(x1, e1) := field ms "URL" (Webhook_URL old) in
      let '(x2, e2) := field ms "Token" (Webhook_Token old) in
      let '(x3, e3) := field ms "CreatedAt" (Webhook_CreatedAt old) in
      let '(x4, e4) := field ms "UpdatedAt" (Webhook_UpdatedAt old) in
      let '(x5, e5) := field ms "_links" (Webhook_Links old) in
      ({| Webhook_ID := x0;
          Webhook_URL := x1;
          Webhook_Token := x2;
          Webhook_CreatedAt := x3;
          Webhook_UpdatedAt := x4;
          Webhook_Links := x5 |},
       foldr first None [e0; e1; e2; e3; e4; e5])
  | _ => (old, Some typeError)
  end.

#[global] Instance WebhookList_decode : Decode WebhookList := fun j old =>
  match j with
  | Null => (old, None)
  | Object ms =>
      let '(x0, e0) := field ms "Data" (WebhookList_Data old) in
      let '(x1, e1) := field ms "_links" (WebhookList_Links old) in
      let '(x2, e2) := field ms "Pagination" (WebhookList_Pagination old) in
      ({| WebhookList_Data := x0;
          WebhookList_Links := x1;
          WebhookList_Pagination := x2 |},
       foldr first None [e0; e1; e2])
  | _ => (old, Some typeError)
  end.

(** [json.Unmarshal]: the text is checked as a whole first; a text that is
    not JSON changes nothing. *)
Definition Unmarshal {V} `{Decode V} : JSONUnmarshal V := fun data v =>
  match parse data with
  | None => (v, Some syntaxError)
  | Some j => decode j v
  end.

(** *** Encoding Go values

    An empty list stands for the nil slice and an empty map for the nil map:
    both are written [null], as the zero value of the field is. *)

Definition lowerhex (n : N) : ascii :=
  if (n <? 10)%N then ascii_of_N (48 + n) else ascii_of_N (87 + n).

Definition escapeByte (c : ascii) : string :=
  let n := Bytes.code c in
  if Ascii.eqb c quote || Ascii.eqb c backslash then String backslash (String c "")
  else if (n =? 8)%N then String backslash "b"
  else if (n =? 12)%N then String backslash "f"
  else if (n =? 10)%N then String backslash "n"
  else if (n =? 13)%N then String backslash "r"
  else if (n =? 9)%N then String backslash "t"
  else if (n <? 32)%N || Bytes.mem c "<>&" then
    String backslash
      ("u00" +:+ String (lowerhex (n / 16)) (String (lowerhex (n mod 16)) ""))
  else String c "".

Fixpoint escape (s : string) : string :=
  match s with
  | EmptyString => ""
  | String c t => escapeByte c +:+ escape t
  end.

Definition encodeString (s : string) : string :=
  String quote (escape s +:+ String quote "").

Fixpoint joinWith (sep : string) (l : list string) : string :=
  match l with
  | [] => ""
  | [x] => x
  | x :: rest => x +:+ sep +:+ joinWith sep rest
  end.

Class Encode (A : Type) : Type := encode : A -> string.

#[global] Instance string_encode : Encode string := encodeString.

#[global] Instance map_encode {A} `{Encode A} : Encode (gmap string A) := fun m =>
  match merge_sort String.le (map fst (map_to_list m)) with
  | [] => "null"
  | keys =>
      "{" +:+ joinWith ","
                (omap (fun k => (fun x => encodeString k +:+ ":" +:+ encode x) <$> m !! k) keys)
          +:+ "}"
  end.

#[global] Instance slice_encode {A} `{Encode A} : Encode (list A) := fun l =>
  match l with
  | [] => "null"
  | _ => "[" +:+ joinWith "," (map encode l) +:+ "]"
  end.

(** A struct: its fields in the order of declaration, under their tags. *)
Definition encodeStruct (fields : list (string * string)) : string :=
  "{" +:+ joinWith "," (map (fun kv => encodeString (fst kv) +:+ ":" +:+ snd kv) fields)
      +:+ "}".

#[global] Instance StepParams_encode : Encode StepParams := fun p =>
  encodeStruct [("action", encode (StepParams_Action p));
                ("options", encode (StepParams_Options p))].

#[global] Instance CallFlowParams_encode : Encode CallFlowParams := fun p =>
  encodeStruct [("title", encode (CallFlowParams_Title p));
                ("steps", encode (CallFlowParams_Steps p))].

#[global] Instance CallParams_encode : Encode CallParams := fun p =>
  encodeStruct [("source", encode (CallParams_Source p));
                ("destination", encode (CallParams_Destination p));
                ("callFlow", encode (CallParams_CallFlow p))].

(** The tag of [Title] is [_title] in webhook.go. *)
#[global] Instance WebhookParams_encode : Encode WebhookParams := fun p =>
  encodeStruct [("_title", encode (WebhookParams_Title p));
                ("url", encode (WebhookParams_URL p));
                ("token", encode (WebhookParams_Token p))].

(** [json.Marshal] of these types has no failing case. *)
Definition Marshal {P} `{Encode P} : JSONMarshal P := fun p => inr (encode p).

End json.

(** ** A reference library

    [url.Parse] on the URLs the client builds: [https://] followed by
    unreserved bytes and the separators of a path and a query. Go parses
    such a text and [URL.String] gives it back unchanged; any other text is
    refused by this instance, which makes no claim about it. *)

Module reference.

Definition plainByte (c : ascii) : bool :=
  Bytes.is_alnum c || Bytes.mem c "-._~/?=&+".

Fixpoint allPlain (s : string) : bool :=
  match s with
  | EmptyString => true
  | String c t => plainByte c && allPlain t
  end.

Definition Parse (rawURL : string) : string + http.URL :=
  match json.dropPrefix "https://" rawURL with
  | Some rest =>
      if allPlain rest then inr {| http.URL_String := rawURL |}
      else inl "parse: outside the URLs of the reference parser"
  | None => inl "parse: outside the URLs of the reference parser"
  end.

Definition lib : GoLib := {| url_Parse := Parse; runtime_Version := "go1.10" |}.

(** A transport that answers every request with the same status and body. *)
Definition server (status : Z) (body : string) : http.Client :=
  {| http.Do := fun _ => inr {| http.StatusCode := status;
                               http.ResponseBody := http.Reads body |} |}.

(** A transport that cannot reach the server. *)
Definition unreachable : http.Client :=
  {| http.Do := fun _ => inl "dial tcp: no such host" |}.

Definition answer (status : Z) (body : string) : http.Response :=
  {| http.StatusCode := status; http.ResponseBody := http.Reads body |}.

(** A request to the voice API as [http.NewRequest] makes it. *)
Definition request_to (method path : string) (body : option string) : http.Request :=
  {| http.Method := method;
     http.Url := {| http.URL_String := VoiceEndpoint +:+ "/" +:+ path |};
     http.Headers := ∅; http.Body := body |}.

(** The body of a calls response, and what it decodes to. *)
Definition call_1_body : string :=
  json.text
    "{'data':[{'id':'call-1','status':'ended'}],'_links':{'self':'/calls/call-1'}}".

Definition call_1 : Call :=
  {| Call_ID := "call-1"; Call_NumberID := ""; Call_Status := "ended";
     Call_Source := ""; Call_Destination := "";
     Call_CreatedAt := None; Call_UpdatedAt := None; Call_EndedAt := None;
     Call_Links := ∅ |}.

Definition call_1_list : CallList :=
  {| CallList_Data := [call_1];
     CallList_Links := {["self" := Some "/calls/call-1"]};
     CallList_Pagination := ∅ |}.

(** An error response that still carries a list. *)
Definition call_x_body : string := json.text "{'data':[{'id':'x'}]}".

Definition call_x : Call :=
  {| Call_ID := "x"; Call_NumberID := ""; Call_Status := "";
     Call_Source := ""; Call_Destination := "";
     Call_CreatedAt := None; Call_UpdatedAt := None; Call_EndedAt := None;
     Call_Links := ∅ |}.

Definition call_x_list : CallList :=
  {| CallList_Data := [call_x]; CallList_Links := ∅; CallList_Pagination := ∅ |}.

(** Well-formed JSON of the wrong shape: [data] is a string, not a list. *)
Definition wrong_shape_body : string := json.text "{'data':'oops'}".

Definition call_flow_x : CallFlow :=
  {| CallFlow_ID := "x"; CallFlow_Title := ""; CallFlow_Steps := [];
     CallFlow_CreatedAt := None; CallFlow_UpdatedAt := None |}.

(** The parameters of a text message. *)
Definition message_params : url.Values :=
  <["originator" := ["MessageBird"]]>
    (<["body" := ["Hello World & co"]]>
       (<["recipients" := ["31612345678,31698765432"]]> ∅)).

End reference.

(** ** Further sample values for the worked examples *)

Module samples.

Definition broken_body : http.Client :=
  {| http.Do := fun _ => inr {| http.StatusCode := 200;
                               http.ResponseBody := http.ReadFails "unexpected EOF" |} |}.

Definition with_logger (c : Client) : Client :=
  {| AccessKey := AccessKey c; HTTPClient := HTTPClient c;
     DebugLog := Some {| Logger_prefix := "" |} |}.

#[global] Instance value_zero : Zero json.value := json.Null.
#[global] Instance value_decode : json.Decode json.value := fun j _ => (j, None).

Definition error_body : string :=
  json.text "{'errors':[{'code':2,'description':'Request not allowed'}]}".

Definition error_value : json.value :=
  json.Object
    [("errors",
      json.Array
        [json.Object [("code", json.Number "2");
                      ("description", json.Str "Request not allowed")]])].

Definition rest_request (method path : string) (body : option string) : http.Request :=
  {| http.Method := method;
     http.Url := {| http.URL_String := RestEndpoint +:+ "/" +:+ path |};
     http.Headers := ∅; http.Body := body |}.

End samples.

(** * Properties *)

(** ** Query strings: [ParseQuery] undoes [Encode] *)

Module url_facts.

Ltac each_byte c :=
  let b0 := fresh in let b1 := fresh in let b2 := fresh in let b3 := fresh in
  let b4 := fresh in let b5 := fresh in let b6 := fresh in let b7 := fresh in
  destruct c as [b0 b1 b2 b3 b4 b5 b6 b7];
  destruct b0, b1, b2, b3, b4, b5, b6, b7.

Lemma unescape_escapeByte (c : ascii) (t : string) :
  url.QueryUnescape (url.escapeByte c +:+ t) = String c <$> url.QueryUnescape t.
Proof. each_byte c; reflexivity. Qed.

Lemma QueryUnescape_QueryEscape (s : string) :
  url.QueryUnescape (url.QueryEscape s) = Some s.
Proof.
  induction s as [|c s IH]; [reflexivity|].
  cbn [url.QueryEscape]. rewrite unescape_escapeByte, IH. reflexivity.
Qed.

Lemma escapeByte_no_separator (sep c : ascii) :
  separator sep -> Bytes.mem sep (url.escapeByte c) = false.
Proof. intros [-> | [-> | ->]]; each_byte c; reflexivity. Qed.

Lemma mem_app (c : ascii) (a b : string) :
  Bytes.mem c (a +:+ b) = Bytes.mem c a || Bytes.mem c b.
Proof.
  induction a as [|d a IH]; [reflexivity|].
  simpl. rewrite IH. apply orb_assoc.
Qed.

Lemma QueryEscape_no_separator (sep : ascii) (s : string) :
  separator sep -> Bytes.mem sep (url.QueryEscape s) = false.
Proof.
  intros Hsep. induction s as [|c s IH]; [reflexivity|].
  cbn [url.QueryEscape]. rewrite mem_app, IH, escapeByte_no_separator; done.
Qed.


Lemma string_app_cons (c : ascii) (a b : string) : String c a +:+ b = String c (a +:+ b).
Proof. reflexivity. Qed.

Lemma string_app_assoc (a b c : string) : (a +:+ b) +:+ c = a +:+ (b +:+ c).
Proof. induction a as [|d a IH]; [reflexivity|]. rewrite !string_app_cons, IH. reflexivity. Qed.

Lemma string_app_not_empty (a b : string) (c : ascii) : String.eqb (a +:+ String c b) "" = false.
Proof. destruct a; reflexivity. Qed.

Lemma Cut_at (sep : ascii) (a b : string) :
  Bytes.mem sep a = false -> url.Cut (a +:+ String sep b) sep = (a, b, true).
Proof.
  induction a as [|d a IH]; intros Hmem.
  - change ("" +:+ String sep b) with (String sep b).
    cbn [url.Cut]. rewrite Ascii.eqb_refl. reflexivity.
  - cbn [Bytes.mem] in Hmem. apply orb_false_iff in Hmem as [Hd Ha].
    rewrite string_app_cons. cbn [url.Cut]. rewrite Ascii.eqb_sym, Hd, (IH Ha). reflexivity.
Qed.

Lemma pieces_last (a : string) : Bytes.mem "&" a = false -> url.pieces a = [a].
Proof.
  induction a as [|d a IH]; intros Hmem; [reflexivity|].
  cbn [Bytes.mem] in Hmem. apply orb_false_iff in Hmem as [Hd Ha].
  cbn [url.pieces]. rewrite Ascii.eqb_sym, Hd, (IH Ha). reflexivity.
Qed.

Lemma pieces_cons (a b : string) :
  Bytes.mem "&" a = false -> url.pieces (a +:+ String "&" b) = a :: url.pieces b.
Proof.
  induction a as [|d a IH]; intros Hmem; [reflexivity|].
  cbn [Bytes.mem] in Hmem. apply orb_false_iff in Hmem as [Hd Ha].
  rewrite string_app_cons. cbn [url.pieces]. rewrite Ascii.eqb_sym, Hd, (IH Ha). reflexivity.
Qed.

Lemma pair_text_clean (sep : ascii) (p : string * string) :
  sep = "&"%char \/ sep = ";"%char -> Bytes.mem sep (url.pair_text p) = false.
Proof.
  intros Hsep. unfold url.pair_text.
  rewrite !mem_app, !QueryEscape_no_separator by (unfold separator; tauto).
  destruct Hsep as [-> | ->]; reflexivity.
Qed.

Lemma parsePiece_pair_text (m : url.Values) (p : string * string) :
  url.parsePiece (m, None) (url.pair_text p) = (url.add_pair m p, None).
Proof.
  unfold url.parsePiece. rewrite pair_text_clean by tauto.
  change (url.pair_text p)
    with (url.QueryEscape (fst p) +:+ String "=" (url.QueryEscape (snd p))).
  rewrite string_app_not_empty.
  rewrite Cut_at by (apply QueryEscape_no_separator; unfold separator; tauto).
  rewrite !QueryUnescape_QueryEscape. reflexivity.
Qed.

Lemma pieces_join_pairs (p : string * string) (ps : list (string * string)) :
  url.pieces (url.join_pairs (p :: ps)) = url.pair_text <$> (p :: ps).
Proof.
  revert p. induction ps as [|q ps IH]; intros p.
  - cbn [url.join_pairs]. apply pieces_last, pair_text_clean. tauto.
  - change (url.join_pairs (p :: q :: ps))
      with (url.pair_text p +:+ String "&" (url.join_pairs (q :: ps))).
    rewrite pieces_cons by (apply pair_text_clean; tauto).
    rewrite IH. reflexivity.
Qed.

Lemma foldl_parsePiece (m : url.Values) (ps : list (string * string)) :
  foldl url.parsePiece (m, None) (url.pair_text <$> ps) = (foldl url.add_pair m ps, None).
Proof.
  revert m. induction ps as [|p ps IH]; intros m; [reflexivity|].
  cbn [fmap list_fmap foldl]. rewrite parsePiece_pair_text. apply IH.
Qed.

Lemma ParseQuery_join_pairs (ps : list (string * string)) :
  url.ParseQuery (url.join_pairs ps) = (foldl url.add_pair ∅ ps, None).
Proof.
  unfold url.ParseQuery. destruct ps as [|p ps]; [reflexivity|].
  rewrite pieces_join_pairs. apply foldl_parsePiece.
Qed.


Lemma write_keys (v : url.Values) (keys : list string) (buf : string) :
  foldl (fun buf k => foldl (fun buf x => url.write_pair buf (k, x)) buf (default [] (v !! k)))
        buf keys
  = foldl url.write_pair buf (k ← keys; (fun x => (k, x)) <$> default [] (v !! k)).
Proof.
  revert buf. induction keys as [|k ks IH]; intros buf; [reflexivity|].
  rewrite bind_cons, foldl_app. cbn [foldl]. rewrite IH. f_equal.
  rewrite foldl_fmap. reflexivity.
Qed.

Lemma Encode_write_pairs (v : url.Values) : url.Encode v = foldl url.write_pair "" (url.pairs v).
Proof. unfold url.pairs. rewrite <- write_keys. reflexivity. Qed.

Lemma write_pair_not_empty (buf : string) (p : string * string) :
  String.eqb (url.write_pair buf p) "" = false.
Proof.
  unfold url.write_pair.
  change (?a +:+ url.QueryEscape (fst p) +:+ "=" +:+ url.QueryEscape (snd p))
    with (a +:+ url.QueryEscape (fst p) +:+ String "=" (url.QueryEscape (snd p))).
  rewrite <- string_app_assoc. apply string_app_not_empty.
Qed.

Lemma write_pairs_join (buf : string) (ps : list (string * string)) :
  foldl url.write_pair buf ps
  = match ps with
    | [] => buf
    | _ => (if String.eqb buf "" then buf else buf +:+ "&") +:+ url.join_pairs ps
    end.
Proof.
  revert buf. induction ps as [|p ps IH]; intros buf; [reflexivity|].
  cbn [foldl]. rewrite IH. destruct ps as [|q ps]; [reflexivity|].
  rewrite write_pair_not_empty.
  change (url.join_pairs (p :: q :: ps)) with (url.pair_text p +:+ "&" +:+ url.join_pairs (q :: ps)).
  unfold url.write_pair. fold (url.pair_text p). rewrite !string_app_assoc. reflexivity.
Qed.

Lemma Encode_join_pairs (v : url.Values) : url.Encode v = url.join_pairs (url.pairs v).
Proof.
  rewrite Encode_write_pairs, write_pairs_join. destruct (url.pairs v); reflexivity.
Qed.

Lemma foldl_add_pair_lookup (k : string) (ps : list (string * string)) (m : url.Values) :
  default [] (foldl url.add_pair m ps !! k) = (default [] (m !! k) ++ url.values_of k ps)%list.
Proof.
  revert m. induction ps as [|p ps IH]; intros m.
  - cbn. rewrite app_nil_r. reflexivity.
  - cbn [foldl]. rewrite IH. unfold url.values_of, url.add_pair.
    destruct (decide (fst p = k)) as [Heq|Hne].
    + rewrite filter_cons_True by exact Heq. rewrite Heq, lookup_insert_eq.
      cbn. rewrite <- app_assoc. reflexivity.
    + rewrite filter_cons_False by exact Hne. rewrite lookup_insert_ne by exact Hne.
      reflexivity.
Qed.

Lemma values_of_tagged (k k' : string) (vs : list string) :
  url.values_of k ((fun x => (k', x)) <$> vs) = if decide (k' = k) then vs else [].
Proof.
  unfold url.values_of. induction vs as [|x vs IH].
  - destruct (decide (k' = k)); reflexivity.
  - cbn [fmap list_fmap]. destruct (decide (k' = k)) as [Heq|Hne].
    + rewrite filter_cons_True by exact Heq. cbn. f_equal. exact IH.
    + rewrite filter_cons_False by exact Hne. exact IH.
Qed.

Lemma values_of_bind (k : string) (v : url.Values) (keys : list string) :
  NoDup keys ->
  url.values_of k (k' ← keys; (fun x => (k', x)) <$> default [] (v !! k'))
  = if decide (k ∈ keys) then default [] (v !! k) else [].
Proof.
  induction 1 as [|k' keys Hnotin Hnodup IH].
  - reflexivity.
  - rewrite bind_cons. unfold url.values_of in *. rewrite filter_app, fmap_app.
    fold (url.values_of k ((fun x => (k', x)) <$> default [] (v !! k'))).
    rewrite values_of_tagged, IH.
    destruct (decide (k' = k)) as [Heq|Hne], (decide (k ∈ keys)) as [Hin|Hout],
      (decide (k ∈ k' :: keys)) as [Hin'|Hout'];
      try subst k'; rewrite ?app_nil_r; try reflexivity; exfalso;
      try contradiction; try (apply Hout', elem_of_cons; tauto).
    apply elem_of_cons in Hin' as [?|?]; [congruence|contradiction].
Qed.

Lemma values_of_pairs (k : string) (v : url.Values) :
  url.values_of k (url.pairs v) = default [] (v !! k).
Proof.
  unfold url.pairs.
  assert (Hperm : url.sortedKeys v ≡ₚ (map_to_list v).*1).
  { unfold url.sortedKeys. apply merge_sort_Permutation. }
  rewrite values_of_bind.
  2:{ rewrite Hperm. apply NoDup_fst_map_to_list. }
  destruct (decide (k ∈ url.sortedKeys v)) as [Hin|Hout]; [reflexivity|].
  destruct (v !! k) as [vs|] eqn:Hk; [|reflexivity].
  exfalso. apply Hout. rewrite Hperm.
  apply list_elem_of_fmap. exists (k, vs). split; [reflexivity|].
  apply elem_of_map_to_list. exact Hk.
Qed.

Theorem ParseQuery_Encode (v : url.Values) :
  snd (url.ParseQuery (url.Encode v)) = None
  /\ forall k, default [] (fst (url.ParseQuery (url.Encode v)) !! k) = default [] (v !! k).
Proof.
  rewrite Encode_join_pairs, ParseQuery_join_pairs. split; [reflexivity|].
  intros k. cbn [fst]. rewrite foldl_add_pair_lookup, lookup_empty. cbn.
  apply values_of_pairs.
Qed.

End url_facts.

(** ** The dispatcher *)

Section Dispatcher.

Context `{GoLib} {V : Type} `{!JSONUnmarshal V}.

Lemma request_transport_failure (c : Client) (v : option V) (req : http.Request) cause :
  http.Do (HTTPClient c) req = inl cause ->
  request c v req = (Val (v, Some (TransportError cause)), [EvSend req]).
Proof.
  intros HDo. unfold request, bind, emit, ret. rewrite HDo. reflexivity.
Qed.

Lemma request_500_run (c : Client) (v : option V) (req : http.Request) response body :
  http.Do (HTTPClient c) req = inr response ->
  ioutil_ReadAll (http.ResponseBody response) = Ok body ->
  http.StatusCode response = 500 ->
  request c v req = (Val (v, Some ErrUnexpectedResponse), preamble c req body).
Proof.
  intros HDo HRead HStatus.
  unfold request, preamble, bind, emit, ret, log_Printf, fmt_Printf.
  rewrite HDo, HRead, HStatus. simpl.
  destruct (DebugLog c); reflexivity.
Qed.

Lemma request_nil_run (c : Client) (req : http.Request) response body :
  http.Do (HTTPClient c) req = inr response ->
  ioutil_ReadAll (http.ResponseBody response) = Ok body ->
  http.StatusCode response <> 500 ->
  request c (@None V) req
  = (Val (None, classify (http.StatusCode response)), preamble c req body).
Proof.
  intros HDo HRead HStatus.
  unfold request, preamble, classify, bind, emit, ret, log_Printf, fmt_Printf.
  rewrite HDo, HRead.
  destruct (Z.eqb_spec (http.StatusCode response) 500) as [|_]; [contradiction|].
  destruct (DebugLog c); simpl;
    destruct ((http.StatusCode response =? 200) || (http.StatusCode response =? 201));
    reflexivity.
Qed.

Lemma request_decode_run (c : Client) (x : V) (req : http.Request) response body :
  http.Do (HTTPClient c) req = inr response ->
  ioutil_ReadAll (http.ResponseBody response) = Ok body ->
  http.StatusCode response <> 500 ->
  request c (Some x) req
  = (Val (Some (fst (json_Unmarshal body x)),
          match snd (json_Unmarshal body x) with
          | Some msg => Some (UnmarshalError msg)
          | None => classify (http.StatusCode response)
          end),
     preamble c req body ++ [EvUnmarshal body])%list.
Proof.
  intros HDo HRead HStatus.
  unfold request, preamble, classify, bind, emit, ret, log_Printf, fmt_Printf.
  rewrite HDo, HRead.
  destruct (Z.eqb_spec (http.StatusCode response) 500) as [|_]; [contradiction|].
  destruct (json_Unmarshal body x) as [x' [msg|]];
    destruct (DebugLog c); simpl;
    try destruct ((http.StatusCode response =? 200) || (http.StatusCode response =? 201));
    reflexivity.
Qed.

End Dispatcher.

Section DispatcherProperties.

Context `{GoLib} {V : Type} `{!JSONUnmarshal V}.

(** C3. A response with status 500: [request] returns [ErrUnexpectedResponse],
    the container (if any) is the one that was passed in, whatever the body
    and whatever the decoder would have done with it, and [json.Unmarshal] is
    not called. *)
Theorem request_status_500 (c : Client) (v : option V) (req : http.Request)
    (response : http.Response) (body : string) :
  http.Do (HTTPClient c) req = inr response ->
  ioutil_ReadAll (http.ResponseBody response) = Ok body ->
  http.StatusCode response = 500 ->
  value (request c v req) = Val (v, Some ErrUnexpectedResponse)
  /\ forall b, EvUnmarshal b ∉ trace (request c v req).
Proof.
  intros HDo HRead HStatus.
  rewrite (request_500_run c v req response body HDo HRead HStatus).
  split; [reflexivity|].
  intros b. unfold trace, preamble. simpl.
  destruct (DebugLog c); simpl; intros Hin;
    repeat (apply elem_of_cons in Hin as [Hin|Hin]; [discriminate|]);
    apply elem_of_nil in Hin; exact Hin.
Qed.

(** C4. A response with status 200 or 201 whose body the decoder accepts for
    the container: [request] returns no error and the container is the one
    the decoder produced from the body. *)
Theorem request_status_200_201 (c : Client) (x x' : V) (req : http.Request)
    (response : http.Response) (body : string) :
  http.Do (HTTPClient c) req = inr response ->
  ioutil_ReadAll (http.ResponseBody response) = Ok body ->
  http.StatusCode response = 200 \/ http.StatusCode response = 201 ->
  json_Unmarshal body x = (x', None) ->
  value (request c (Some x) req) = Val (Some x', None).
Proof.
  intros HDo HRead HStatus HDecode.
  rewrite (request_decode_run c x req response body HDo HRead) by lia.
  rewrite HDecode. unfold value, classify. simpl.
  destruct HStatus as [-> | ->]; reflexivity.
Qed.

(** C2, as amended. A response whose status is not 500, with a container
    supplied: [json.Unmarshal] is called on the body, as the last thing
    before the status is classified; and when the decoder accepts the body
    for the container (well-formed JSON that matches the container's shape)
    and the status is neither 200 nor 201, [request] returns [ErrResponse]
    together with the container the decoder produced. *)
Theorem request_decodes_then_classifies (c : Client) (x : V) (req : http.Request)
    (response : http.Response) (body : string) :
  http.Do (HTTPClient c) req = inr response ->
  ioutil_ReadAll (http.ResponseBody response) = Ok body ->
  http.StatusCode response <> 500 ->
  trace (request c (Some x) req) = (preamble c req body ++ [EvUnmarshal body])%list
  /\ forall x' : V,
       json_Unmarshal body x = (x', None) ->
       http.StatusCode response <> 200 ->
       http.StatusCode response <> 201 ->
       value (request c (Some x) req) = Val (Some x', Some ErrResponse).
Proof.
  intros HDo HRead HStatus.
  rewrite (request_decode_run c x req response body HDo HRead HStatus).
  split; [reflexivity|].
  intros x' HDecode H200 H201. rewrite HDecode. unfold value, classify. simpl.
  destruct (Z.eqb_spec (http.StatusCode response) 200); [contradiction|].
  destruct (Z.eqb_spec (http.StatusCode response) 201); [contradiction|].
  reflexivity.
Qed.

(** C10. A response whose status is not 500, with a container supplied and a
    body the decoder rejects: [request] returns the decoder's error, whatever
    the status is; that error is neither of the two sentinels nor a transport
    or read failure. *)
Theorem request_decode_error_not_masked (c : Client) (x x' : V) (req : http.Request)
    (response : http.Response) (body msg : string) :
  http.Do (HTTPClient c) req = inr response ->
  ioutil_ReadAll (http.ResponseBody response) = Ok body ->
  http.StatusCode response <> 500 ->
  json_Unmarshal body x = (x', Some msg) ->
  value (request c (Some x) req) = Val (Some x', Some (UnmarshalError msg))
  /\ UnmarshalError msg <> ErrResponse
  /\ UnmarshalError msg <> ErrUnexpectedResponse
  /\ (forall cause, UnmarshalError msg <> TransportError cause)
  /\ (forall cause, UnmarshalError msg <> ReadError cause).
Proof.
  intros HDo HRead HStatus HDecode.
  rewrite (request_decode_run c x req response body HDo HRead HStatus).
  rewrite HDecode. repeat split; try discriminate; intros; discriminate.
Qed.

(** Without a debug logger [request] writes nothing to the log. *)
Lemma request_no_log_without_logger (c : Client) (v : option V) (req : http.Request) :
  DebugLog c = None -> forall line, EvLog line ∉ trace (request c v req).
Proof.
  intros HLog line. unfold request, bind, emit, ret, log_Printf, fmt_Printf, trace.
  rewrite HLog.
  destruct (http.Do (HTTPClient c) req) as [cause|response]; simpl.
  { intros Hin. apply elem_of_cons in Hin as [Hin|Hin]; [discriminate|].
    apply elem_of_nil in Hin; exact Hin. }
  destruct (ioutil_ReadAll (http.ResponseBody response)) as [body|err]; simpl.
  2:{ intros Hin. apply elem_of_cons in Hin as [Hin|Hin]; [discriminate|].
      apply elem_of_nil in Hin; exact Hin. }
  destruct (http.StatusCode response =? 500); simpl.
  { intros Hin. repeat (apply elem_of_cons in Hin as [Hin|Hin]; [discriminate|]).
    apply elem_of_nil in Hin; exact Hin. }
  destruct v as [x|]; simpl.
  - destruct (json_Unmarshal body x) as [x' [msg|]]; simpl;
      try destruct ((http.StatusCode response =? 200) || (http.StatusCode response =? 201));
      simpl; intros Hin;
      repeat (apply elem_of_cons in Hin as [Hin|Hin]; [discriminate|]);
      apply elem_of_nil in Hin; exact Hin.
  - destruct ((http.StatusCode response =? 200) || (http.StatusCode response =? 201));
      simpl; intros Hin;
      repeat (apply elem_of_cons in Hin as [Hin|Hin]; [discriminate|]);
      apply elem_of_nil in Hin; exact Hin.
Qed.

(** Once the body is read [request] prints it on standard output, with or
    without a debug logger. *)
Lemma request_prints_body (c : Client) (v : option V) (req : http.Request)
    (response : http.Response) (body : string) :
  http.Do (HTTPClient c) req = inr response ->
  ioutil_ReadAll (http.ResponseBody response) = Ok body ->
  EvStdout ("HTTP RESPONSE: " +:+ body +:+ newline) ∈ trace (request c v req).
Proof.
  intros HDo HRead.
  assert (Hpre : EvStdout ("HTTP RESPONSE: " +:+ body +:+ newline) ∈ preamble c req body).
  { unfold preamble. apply elem_of_cons. right. apply elem_of_app. right.
    apply elem_of_cons. left. reflexivity. }
  destruct (Z.eq_dec (http.StatusCode response) 500) as [H500|H500].
  - rewrite (request_500_run c v req response body HDo HRead H500). exact Hpre.
  - destruct v as [x|].
    + rewrite (request_decode_run c x req response body HDo HRead H500).
      unfold trace. cbn [snd]. apply elem_of_app. left. exact Hpre.
    + rewrite (request_nil_run c req response body HDo HRead H500). exact Hpre.
Qed.

End DispatcherProperties.

(** ** The request builders *)

Section Builder.

Context `{GoLib}.

Lemma http_NewRequest_Ok (method url : string) (body : option string) (req : http.Request) :
  http_NewRequest method url body = Ok req ->
  exists u, url_Parse url = inr u /\ req = fresh_request method u body.
Proof.
  unfold http_NewRequest, fresh_request.
  destruct (negb (http.validMethod (if String.eqb method "" then "GET" else method)));
    [discriminate|].
  destruct (url_Parse url) as [msg|u]; [discriminate|].
  intros [= <-]. exists u. split; reflexivity.
Qed.

(** A request that [createRequest] returns is the fresh request with the
    encoded parameters as body, the content type of a form when there are
    parameters, and the three common headers. *)
Lemma createRequest_Ok (c : Client) (method endpoint path : string)
    (params : option url.Values) (req : http.Request) :
  value (createRequest c method endpoint path params) = Val (Ok req) ->
  exists u,
    req = addCommonHeaders c
            match params with
            | Some p =>
                http.with_header (fresh_request method u (Some (url.Encode p)))
                  (http.Set_ ∅ "Content-Type" "application/x-www-form-urlencoded")
            | None => fresh_request method u None
            end.
Proof.
  unfold createRequest, value.
  destruct (url_Parse (endpoint +:+ "/" +:+ path)) as [msg|uri]; [discriminate|].
  destruct params as [p|].
  - destruct (http_NewRequest method (http.URL_String uri) (Some (url.Encode p)))
      as [r|err] eqn:HNew.
    + apply http_NewRequest_Ok in HNew as (u & _ & ->).
      unfold bind, ret, log_Printf, emit.
      destruct (DebugLog c); [destruct (url.QueryUnescape (url.Encode p))|];
        cbn; intros [= <-]; exists u; reflexivity.
    + cbn. discriminate.
  - destruct (http_NewRequest method (http.URL_String uri) None) as [r|err] eqn:HNew.
    + apply http_NewRequest_Ok in HNew as (u & _ & ->).
      unfold bind, ret, log_Printf, emit.
      destruct (DebugLog c); cbn; intros [= <-]; exists u; reflexivity.
    + cbn. discriminate.
Qed.

Lemma createJSONRequest_Ok {P} `{!JSONMarshal P} (c : Client)
    (method endpoint path : string) (params : option P) (req : http.Request) :
  value (createJSONRequest c method endpoint path params) = Val (Ok req) ->
  exists u jsonEncoded,
    json_Marshal_ptr params = inr jsonEncoded
    /\ req = addCommonHeaders c
               (http.with_header (fresh_request method u (Some jsonEncoded))
                  (http.Set_ ∅ "Content-Type" "application/json")).
Proof.
  unfold createJSONRequest, value.
  destruct (url_Parse (endpoint +:+ "/" +:+ path)) as [msg|uri]; [discriminate|].
  destruct (json_Marshal_ptr params) as [msg|jsonEncoded]; [discriminate|].
  destruct (http_NewRequest method (http.URL_String uri) (Some jsonEncoded))
    as [r|err] eqn:HNew; [|discriminate].
  apply http_NewRequest_Ok in HNew as (u & _ & ->).
  cbn. intros [= <-]. exists u, jsonEncoded. split; reflexivity.
Qed.

(** The header keys of the builders are in canonical form already. *)
Lemma canonical_keys :
  http.CanonicalMIMEHeaderKey "Content-Type" = "Content-Type"
  /\ http.CanonicalMIMEHeaderKey "Accept" = "Accept"
  /\ http.CanonicalMIMEHeaderKey "Authorization" = "Authorization"
  /\ http.CanonicalMIMEHeaderKey "User-Agent" = "User-Agent".
Proof. repeat split; vm_compute; reflexivity. Qed.

(** The header set after [addCommonHeaders], when the request had at most a
    content type before. *)
Lemma addCommonHeaders_headers (c : Client) (r : http.Request) (ct : option (list string)) :
  http.Headers r = match ct with Some v => {["Content-Type" := v]} | None => ∅ end ->
  let h := http.Headers (addCommonHeaders c r) in
  h !! "Accept" = Some ["application/json"]
  /\ h !! "Authorization" = Some ["AccessKey " +:+ AccessKey c]
  /\ h !! "User-Agent" = Some [userAgent]
  /\ h !! "Content-Type" = ct.
Proof.
  intros Hr. destruct canonical_keys as (_ & HA & HB & HC).
  unfold addCommonHeaders, http.Add. cbn [http.Headers http.with_header].
  rewrite HA, HB, HC, Hr.
  destruct ct as [v|]; repeat split;
    repeat first
      [ rewrite lookup_insert_eq
      | rewrite lookup_insert_ne by discriminate
      | rewrite lookup_singleton_eq
      | rewrite lookup_singleton_ne by discriminate
      | rewrite lookup_empty ];
    reflexivity.
Qed.

End Builder.

Section BuilderProperties.

Context `{GoLib}.

(** C8. A request built by [createRequest] from a form-parameter collection
    has the encoded collection as body, and [url.ParseQuery] decodes that
    body without error into a collection that gives every key exactly the
    values that were supplied for it, in the same order: no pair is added
    and none is lost. *)
Theorem createRequest_form_body_round_trip (c : Client) (method endpoint path : string)
    (params : url.Values) (req : http.Request) :
  value (createRequest c method endpoint path (Some params)) = Val (Ok req) ->
  exists body,
    http.Body req = Some body
    /\ body = url.Encode params
    /\ snd (url.ParseQuery body) = None
    /\ forall k, default [] (fst (url.ParseQuery body) !! k) = default [] (params !! k).
Proof.
  intros Hbuilt. apply createRequest_Ok in Hbuilt as (u & ->).
  exists (url.Encode params).
  destruct (url_facts.ParseQuery_Encode params) as [Herr Hvalues].
  repeat split; assumption.
Qed.

(** C9. Every request a builder returns carries [Accept: application/json],
    [Authorization: AccessKey <key>] with the client's access key and the
    [User-Agent] of the client; its [Content-Type] is
    [application/x-www-form-urlencoded] when [createRequest] was given form
    parameters, absent (as the body is) when it was given none, and
    [application/json] for [createJSONRequest]. *)
Theorem builders_set_headers :
  (forall (c : Client) (method endpoint path : string) (params : option url.Values)
          (req : http.Request),
      value (createRequest c method endpoint path params) = Val (Ok req) ->
      http.Headers req !! "Accept" = Some ["application/json"]
      /\ http.Headers req !! "Authorization" = Some ["AccessKey " +:+ AccessKey c]
      /\ http.Headers req !! "User-Agent"
         = Some ["MessageBird/ApiClient/3.0.0 Go/" +:+ runtime_Version]
      /\ match params with
         | Some p =>
             http.Headers req !! "Content-Type" = Some ["application/x-www-form-urlencoded"]
             /\ http.Body req = Some (url.Encode p)
         | None =>
             http.Headers req !! "Content-Type" = None /\ http.Body req = None
         end)
  /\ (forall (P : Type) (marshal : JSONMarshal P) (c : Client)
             (method endpoint path : string) (params : option P) (req : http.Request),
      value (createJSONRequest c method endpoint path params) = Val (Ok req) ->
      http.Headers req !! "Accept" = Some ["application/json"]
      /\ http.Headers req !! "Authorization" = Some ["AccessKey " +:+ AccessKey c]
      /\ http.Headers req !! "User-Agent"
         = Some ["MessageBird/ApiClient/3.0.0 Go/" +:+ runtime_Version]
      /\ http.Headers req !! "Content-Type" = Some ["application/json"]
      /\ (exists text, json_Marshal_ptr params = inr text /\ http.Body req = Some text)).
Proof.
  destruct canonical_keys as (HCT & _).
  split.
  - intros c method endpoint path params req Hbuilt.
    apply createRequest_Ok in Hbuilt as (u & ->).
    destruct params as [p|].
    + destruct (addCommonHeaders_headers c
                  (http.with_header (fresh_request method u (Some (url.Encode p)))
                     (http.Set_ ∅ "Content-Type" "application/x-www-form-urlencoded"))
                  (Some ["application/x-www-form-urlencoded"]))
        as (HA & HB & HC & HD).
      { unfold http.Set_. rewrite HCT. reflexivity. }
      repeat split; assumption.
    + destruct (addCommonHeaders_headers c (fresh_request method u None) None)
        as (HA & HB & HC & HD); [reflexivity|].
      repeat split; assumption.
  - intros P marshal c method endpoint path params req Hbuilt.
    apply createJSONRequest_Ok in Hbuilt as (u & text & Htext & ->).
    destruct (addCommonHeaders_headers c
                (http.with_header (fresh_request method u (Some text))
                   (http.Set_ ∅ "Content-Type" "application/json"))
                (Some ["application/json"]))
      as (HA & HB & HC & HD).
    { unfold http.Set_. rewrite HCT. reflexivity. }
    repeat split; try assumption.
    exists text. split; [assumption|reflexivity].
Qed.

(** The method of a request is the one the builder was given (or [GET] for
    the empty string): [createRequest] passes it on unchanged. *)
Lemma createRequest_method (c : Client) (method endpoint path : string)
    (params : option url.Values) (req : http.Request) :
  value (createRequest c method endpoint path params) = Val (Ok req) ->
  http.Method req = if String.eqb method "" then "GET" else method.
Proof.
  intros Hbuilt. apply createRequest_Ok in Hbuilt as (u & ->).
  destruct params; reflexivity.
Qed.

End BuilderProperties.

(** ** The resource methods *)

Lemma value_bind {A B} (m : M A) (k : A -> M B) :
  value (bind m k)
  = match value m with
    | Val a => value (k a)
    | Panic msg => Panic msg
    end.
Proof.
  unfold value, bind. destruct m as [[a|msg] t]; [|reflexivity].
  cbn [fst]. destruct (k a). reflexivity.
Qed.

Lemma trace_bind {A B} (m : M A) (k : A -> M B) :
  trace (bind m k)
  = match value m with
    | Val a => (trace m ++ trace (k a))%list
    | Panic _ => trace m
    end.
Proof.
  unfold value, trace, bind. destruct m as [[a|msg] t]; [|reflexivity].
  cbn [fst snd]. destruct (k a). reflexivity.
Qed.

Ltac run_method Hbuild Hrequest :=
  rewrite value_bind, Hbuild; cbn beta iota;
  rewrite value_bind, Hrequest; cbn beta iota.

Ltac solve_indexes_zero :=
  let req := fresh "req" in let l := fresh "l" in let err := fresh "err" in
  let Hbuild := fresh "Hbuild" in let Hrequest := fresh "Hrequest" in
  intros req l err Hbuild Hrequest [-> | ->];
  run_method Hbuild Hrequest;
  try rewrite decide_True by reflexivity;
  rewrite !value_bind; unfold deref, index; cbn;
  match goal with |- context [match ?d with [] => _ | _ :: _ => _ end] =>
    destruct d; cbn; eauto
  end.

Ltac solve_on_ErrResponse :=
  let req := fresh "req" in let l := fresh "l" in
  let Hbuild := fresh "Hbuild" in let Hrequest := fresh "Hrequest" in
  intros req l Hbuild Hrequest;
  run_method Hbuild Hrequest;
  rewrite decide_True by reflexivity;
  unfold deref, index, value, bind, ret, panic; cbn;
  try match goal with |- context [match ?d with [] => _ | _ :: _ => _ end] =>
    destruct d; cbn; eauto
  end;
  reflexivity.

Section IndexZero.

Context `{GoLib}.
Context `{!JSONUnmarshal CallFlowList, !JSONUnmarshal CallList, !JSONUnmarshal LegList}.
Context `{!JSONUnmarshal RecordingList, !JSONUnmarshal TranscriptionList}.
Context `{!JSONUnmarshal WebhookList}.
Context `{!JSONMarshal CallFlowParams, !JSONMarshal CallParams, !JSONMarshal WebhookParams}.

(** C5. Each of the ten single-resource methods of the voice API takes
    element zero of the decoded list without a check on its length: it
    returns that element when the decoded list is not empty and panics with
    an index out of range when it is. *)
Theorem single_resource_methods_index_zero (c : Client) :
  (forall id,
      indexes_zero c CallFlowList_Data
        (createRequest c Get VoiceEndpoint (CallFlowPath +:+ "/" +:+ id) None)
        (Client_CallFlow c id))
  /\ (forall params,
      indexes_zero c CallFlowList_Data
        (createJSONRequest c Post VoiceEndpoint CallFlowPath params)
        (Client_NewCallFlow c params))
  /\ (forall id,
      indexes_zero c CallList_Data
        (createRequest c Get VoiceEndpoint (CallPath +:+ "/" +:+ id) None)
        (Client_Call c id))
  /\ (forall params,
      indexes_zero c CallList_Data
        (createJSONRequest c Post VoiceEndpoint CallPath params)
        (Client_NewCall c params))
  /\ (forall callID legID,
      indexes_zero c LegList_Data
        (createRequest c Get VoiceEndpoint
           (CallPath +:+ "/" +:+ callID +:+ "/" +:+ LegPath +:+ "/" +:+ legID) None)
        (Client_Leg c callID legID))
  /\ (forall callID legID recordingID,
      indexes_zero c RecordingList_Data
        (createRequest c Get VoiceEndpoint
           (CallPath +:+ "/" +:+ callID +:+ "/" +:+ LegPath +:+ "/" +:+ legID
              +:+ "/" +:+ RecordingPath +:+ "/" +:+ recordingID) None)
        (Client_Recording c callID legID recordingID))
  /\ (forall callID legID recordingID transcriptionID,
      indexes_zero c TranscriptionList_Data
        (createRequest c Get VoiceEndpoint
           (CallPath +:+ "/" +:+ callID +:+ "/" +:+ LegPath +:+ "/" +:+ legID
              +:+ "/" +:+ RecordingPath +:+ "/" +:+ recordingID
              +:+ "/" +:+ TranscriptionPath +:+ "/" +:+ transcriptionID) None)
        (Client_Transcription c callID legID recordingID transcriptionID))
  /\ (forall callID legID recordingID,
      indexes_zero c TranscriptionList_Data
        (createJSONRequest c Post VoiceEndpoint
           (CallPath +:+ "/" +:+ callID +:+ "/" +:+ LegPath +:+ "/" +:+ legID
              +:+ "/" +:+ RecordingPath +:+ "/" +:+ TranscriptionPath) (@None Empty_set))
        (Client_NewTranscriptionRequest c callID legID recordingID))
  /\ (forall id,
      indexes_zero c WebhookList_Data
        (createRequest c Get VoiceEndpoint (WebhookPath +:+ "/" +:+ id) None)
        (Client_Webhook c id))
  /\ (forall params,
      indexes_zero c WebhookList_Data
        (createJSONRequest c Post VoiceEndpoint WebhookPath params)
        (Client_NewWebhook c params)).
Proof.
  repeat split; intros;
    [ unfold Client_CallFlow | unfold Client_NewCallFlow | unfold Client_Call
    | unfold Client_NewCall | unfold Client_Leg | unfold Client_Recording
    | unfold Client_Transcription | unfold Client_NewTranscriptionRequest
    | unfold Client_Webhook | unfold Client_NewWebhook ];
    solve_indexes_zero.
Qed.

End IndexZero.

Section ErrResponseHandling.

Context `{GoLib}.
Context `{!JSONUnmarshal CallFlowList, !JSONUnmarshal CallList, !JSONUnmarshal LegList}.
Context `{!JSONUnmarshal RecordingList, !JSONUnmarshal TranscriptionList}.
Context `{!JSONUnmarshal WebhookList}.
Context `{!JSONMarshal CallFlowParams, !JSONMarshal CallParams, !JSONMarshal WebhookParams}.

(** The methods that hand the dispatcher's [ErrResponse] on to their caller:
    [CallFlow], [NewCall], [Webhook], [Webhooks], [NewWebhook]. *)
Lemma methods_returning_ErrResponse (c : Client) :
  (forall id,
      single_on_ErrResponse c CallFlowList_Data
        (createRequest c Get VoiceEndpoint (CallFlowPath +:+ "/" +:+ id) None)
        (Client_CallFlow c id) (Some ErrResponse))
  /\ (forall params,
      single_on_ErrResponse c CallList_Data
        (createJSONRequest c Post VoiceEndpoint CallPath params)
        (Client_NewCall c params) (Some ErrResponse))
  /\ (forall id,
      single_on_ErrResponse c WebhookList_Data
        (createRequest c Get VoiceEndpoint (WebhookPath +:+ "/" +:+ id) None)
        (Client_Webhook c id) (Some ErrResponse))
  /\ list_on_ErrResponse c
       (createRequest c Get VoiceEndpoint WebhookPath None)
       (Client_Webhooks c) (Some ErrResponse)
  /\ (forall params,
      single_on_ErrResponse c WebhookList_Data
        (createJSONRequest c Post VoiceEndpoint WebhookPath params)
        (Client_NewWebhook c params) (Some ErrResponse)).
Proof.
  repeat split; intros;
    [ unfold Client_CallFlow | unfold Client_NewCall | unfold Client_Webhook
    | unfold Client_Webhooks | unfold Client_NewWebhook ];
    solve_on_ErrResponse.
Qed.

(** The methods that turn the dispatcher's [ErrResponse] into a nil error:
    [CallFlows], [NewCallFlow], [Call], [Calls], [Leg], [Legs], [Recording],
    [Recordings], [Transcription], [Transcriptions],
    [NewTranscriptionRequest]. *)
Lemma methods_dropping_ErrResponse (c : Client) :
  list_on_ErrResponse c
    (createRequest c Get VoiceEndpoint CallFlowPath None)
    (Client_CallFlows c) None
  /\ (forall params,
      single_on_ErrResponse c CallFlowList_Data
        (createJSONRequest c Post VoiceEndpoint CallFlowPath params)
        (Client_NewCallFlow c params) None)
  /\ (forall id,
      single_on_ErrResponse c CallList_Data
        (createRequest c Get VoiceEndpoint (CallPath +:+ "/" +:+ id) None)
        (Client_Call c id) None)
  /\ list_on_ErrResponse c
       (createRequest c Get VoiceEndpoint CallPath None)
       (Client_Calls c) None
  /\ (forall callID legID,
      single_on_ErrResponse c LegList_Data
        (createRequest c Get VoiceEndpoint
           (CallPath +:+ "/" +:+ callID +:+ "/" +:+ LegPath +:+ "/" +:+ legID) None)
        (Client_Leg c callID legID) None)
  /\ (forall callID,
      list_on_ErrResponse c
        (createRequest c Get VoiceEndpoint
           (CallPath +:+ "/" +:+ callID +:+ "/" +:+ LegPath) None)
        (Client_Legs c callID) None)
  /\ (forall callID legID recordingID,
      single_on_ErrResponse c RecordingList_Data
        (createRequest c Get VoiceEndpoint
           (CallPath +:+ "/" +:+ callID +:+ "/" +:+ LegPath +:+ "/" +:+ legID
              +:+ "/" +:+ RecordingPath +:+ "/" +:+ recordingID) None)
        (Client_Recording c callID legID recordingID) None)
  /\ (forall callID legID,
      list_on_ErrResponse c
        (createRequest c Get VoiceEndpoint
           (CallPath +:+ "/" +:+ callID +:+ "/" +:+ LegPath +:+ "/" +:+ legID
              +:+ "/" +:+ RecordingPath) None)
        (Client_Recordings c callID legID) None)
  /\ (forall callID legID recordingID transcriptionID,
      single_on_ErrResponse c TranscriptionList_Data
        (createRequest c Get VoiceEndpoint
           (CallPath +:+ "/" +:+ callID +:+ "/" +:+ LegPath +:+ "/" +:+ legID
              +:+ "/" +:+ RecordingPath +:+ "/" +:+ recordingID
              +:+ "/" +:+ TranscriptionPath +:+ "/" +:+ transcriptionID) None)
        (Client_Transcription c callID legID recordingID transcriptionID) None)
  /\ (forall callID legID recordingID,
      list_on_ErrResponse c
        (createRequest c Get VoiceEndpoint
           (CallPath +:+ "/" +:+ callID +:+ "/" +:+ LegPath +:+ "/" +:+ legID
              +:+ "/" +:+ RecordingPath +:+ "/" +:+ TranscriptionPath) None)
        (Client_Transcriptions c callID legID recordingID) None)
  /\ (forall callID legID recordingID,
      single_on_ErrResponse c TranscriptionList_Data
        (createJSONRequest c Post VoiceEndpoint
           (CallPath +:+ "/" +:+ callID +:+ "/" +:+ LegPath +:+ "/" +:+ legID
              +:+ "/" +:+ RecordingPath +:+ "/" +:+ TranscriptionPath) (@None Empty_set))
        (Client_NewTranscriptionRequest c callID legID recordingID) None).
Proof.
  repeat split; intros;
    [ unfold Client_CallFlows | unfold Client_NewCallFlow | unfold Client_Call
    | unfold Client_Calls | unfold Client_Leg | unfold Client_Legs
    | unfold Client_Recording | unfold Client_Recordings | unfold Client_Transcription
    | unfold Client_Transcriptions | unfold Client_NewTranscriptionRequest ];
    solve_on_ErrResponse.
Qed.

(** [DeleteWebhook] builds its request with the constant [Delete], and that
    request is the one it sends. *)
Lemma DeleteWebhook_method (c : Client) (id : string) (req : http.Request) :
  EvSend req ∈ trace (Client_DeleteWebhook c id) ->
  http.Method req = Delete.
Proof.
  unfold Client_DeleteWebhook. rewrite trace_bind.
  destruct (value (createRequest c Delete VoiceEndpoint (WebhookPath +:+ "/" +:+ id) None))
    as [[built|err]|msg] eqn:Hbuilt.
  - assert (Hno : forall r, EvSend r ∉
                    trace (createRequest c Delete VoiceEndpoint (WebhookPath +:+ "/" +:+ id) None)).
    { intros r. unfold createRequest, trace, bind, ret, log_Printf, emit.
      destruct (url_Parse _); [cbn; apply not_elem_of_nil|].
      destruct (http_NewRequest _ _ _); [|cbn; apply not_elem_of_nil].
      destruct (DebugLog c); cbn; intros Hin;
        repeat (apply elem_of_cons in Hin as [Hin|Hin]; [discriminate|]);
        apply elem_of_nil in Hin; exact Hin. }
    intros [Hin|Hin]%elem_of_app; [destruct (Hno _ Hin)|].
    pose proof (createRequest_method c Delete _ _ _ _ Hbuilt) as Hm.
    rewrite trace_bind in Hin.
    assert (Hsent : forall r, EvSend r ∈ trace (request c (@None Empty_set) built) -> r = built).
    { intros r. unfold request, trace, bind, ret, log_Printf, fmt_Printf, emit.
      destruct (http.Do _ _) as [cause|response]; cbn.
      { intros Hr. apply elem_of_cons in Hr as [[= ->]|Hr]; [reflexivity|].
        apply elem_of_nil in Hr. destruct Hr. }
      destruct (ioutil_ReadAll _); cbn.
      2:{ intros Hr. apply elem_of_cons in Hr as [[= ->]|Hr]; [reflexivity|].
          apply elem_of_nil in Hr. destruct Hr. }
      destruct (DebugLog c), (http.StatusCode response =? 500); cbn;
        try destruct ((http.StatusCode response =? 200) || (http.StatusCode response =? 201));
        cbn; intros Hr;
        (apply elem_of_cons in Hr as [[= ->]|Hr]; [reflexivity|]);
        repeat (apply elem_of_cons in Hr as [Hr|Hr]; [discriminate|]);
        apply elem_of_nil in Hr; destruct Hr. }
    destruct (value (request c None built)) as [[v e]|msg].
    + apply elem_of_app in Hin as [Hin|Hin].
      * apply Hsent in Hin as ->. exact Hm.
      * destruct e; cbn in Hin; apply elem_of_nil in Hin; destruct Hin.
    + apply Hsent in Hin as ->. exact Hm.
  - intros [Hin|Hin]%elem_of_app.
    + exfalso. revert Hin. unfold createRequest, trace, bind, ret, log_Printf, emit.
      destruct (url_Parse _); [cbn; apply not_elem_of_nil|].
      destruct (http_NewRequest _ _ _); [|cbn; apply not_elem_of_nil].
      destruct (DebugLog c); cbn; intros Hin;
        repeat (apply elem_of_cons in Hin as [Hin|Hin]; [discriminate|]);
        apply elem_of_nil in Hin; exact Hin.
    + cbn in Hin. apply elem_of_nil in Hin. destruct Hin.
  - intros Hin. exfalso. revert Hin Hbuilt.
    unfold createRequest, trace, value, bind, ret, log_Printf, emit.
    destruct (url_Parse _); [cbn; discriminate|].
    destruct (http_NewRequest _ _ _); [|cbn; discriminate].
    destruct (DebugLog c); cbn; discriminate.
Qed.

End ErrResponseHandling.

(** ** Worked examples on the reference library *)

Section Examples.

#[local] Existing Instance reference.lib.
#[local] Existing Instance json.Unmarshal.
#[local] Existing Instance json.Marshal.

(** The 500 scenario: a POST to the webhooks resource answered with status
    500 and the text [internal error]. *)
Lemma request_status_500_witness :
  let c := New "key" (reference.server 500 "internal error") in
  let req := reference.request_to Post WebhookPath (Some "null") in
  json.parse "internal error" = None
  /\ value (request c (Some (zero : WebhookList)) req)
     = Val (Some zero, Some ErrUnexpectedResponse)
  /\ forall b, EvUnmarshal b ∉ trace (request c (Some (zero : WebhookList)) req).
Proof.
  intros c req. split; [vm_compute; reflexivity|].
  apply (request_status_500 c (Some zero) req
           (reference.answer 500 "internal error") "internal error");
    reflexivity.
Defined.

(** The 200 scenario: a GET of a call answered with status 200 and a list of
    one call. *)
Lemma request_status_200_201_witness :
  let c := New "key" (reference.server 200 reference.call_1_body) in
  let req := reference.request_to Get (CallPath +:+ "/call-1") None in
  value (request c (Some (zero : CallList)) req) = Val (Some reference.call_1_list, None).
Proof.
  intros c req.
  apply (request_status_200_201 c zero reference.call_1_list req
           (reference.answer 200 reference.call_1_body) reference.call_1_body);
    [reflexivity | reflexivity | left; reflexivity | vm_compute; reflexivity].
Defined.

(** A 404 whose body still carries a list: the list is decoded and
    [ErrResponse] comes with it. *)
Lemma request_decodes_then_classifies_witness :
  let c := New "key" (reference.server 404 reference.call_x_body) in
  let req := reference.request_to Get (CallPath +:+ "/x") None in
  trace (request c (Some (zero : CallList)) req)
  = (preamble c req reference.call_x_body ++ [EvUnmarshal reference.call_x_body])%list
  /\ value (request c (Some (zero : CallList)) req)
     = Val (Some reference.call_x_list, Some ErrResponse).
Proof.
  intros c req.
  destruct (request_decodes_then_classifies c (zero : CallList) req
              (reference.answer 404 reference.call_x_body) reference.call_x_body)
    as [Htrace Hvalue]; [reflexivity | reflexivity | discriminate |].
  split; [exact Htrace|].
  apply Hvalue; [vm_compute; reflexivity | discriminate | discriminate].
Defined.

(** C2 as it is stated, with well-formed JSON as the only condition on the
    body, does not hold: the body [{"data":"oops"}] is well-formed JSON, but
    a string is no list of calls, the decoder reports a type error, and a 404
    with that body comes back as the decoder's error, not as [ErrResponse]. *)
Lemma request_well_formed_body_counterexample :
  ~ (forall (c : Client) (req : http.Request) (response : http.Response)
            (body : string) (x : CallList),
        http.Do (HTTPClient c) req = inr response ->
        ioutil_ReadAll (http.ResponseBody response) = Ok body ->
        http.StatusCode response <> 500 ->
        http.StatusCode response <> 200 ->
        http.StatusCode response <> 201 ->
        is_Some (json.parse body) ->
        exists x', value (request c (Some x) req) = Val (Some x', Some ErrResponse)).
Proof.
  intros Hclaim.
  destruct (Hclaim (New "key" (reference.server 404 reference.wrong_shape_body))
              (reference.request_to Get (CallPath +:+ "/x") None)
              (reference.answer 404 reference.wrong_shape_body)
              reference.wrong_shape_body zero)
    as [x' Hvalue];
    [reflexivity | reflexivity | discriminate | discriminate | discriminate | |].
  - vm_compute. eexists. reflexivity.
  - vm_compute in Hvalue. discriminate.
Qed.

(** The reference decoder rejects every text that is not JSON, whatever the
    container. *)
Lemma Unmarshal_malformed {V} `{!json.Decode V} (body : string) (v : V) :
  json.parse body = None -> json.Unmarshal body v = (v, Some json.syntaxError).
Proof. intros Hparse. unfold json.Unmarshal. rewrite Hparse. reflexivity. Qed.

(** A 404 whose body is not JSON: the decoder's error is what comes back. *)
Lemma request_decode_error_not_masked_witness :
  let c := New "key" (reference.server 404 "Not Found") in
  let req := reference.request_to Get (CallPath +:+ "/x") None in
  value (request c (Some (zero : CallList)) req)
  = Val (Some zero, Some (UnmarshalError json.syntaxError)).
Proof.
  intros c req.
  apply (request_decode_error_not_masked c zero zero req
           (reference.answer 404 "Not Found") "Not Found" json.syntaxError);
    [reflexivity | reflexivity | discriminate | vm_compute; reflexivity].
Defined.

(** [Call] on a list of one call returns that call. *)
Lemma single_resource_methods_index_zero_witness :
  let c := New "key" (reference.server 200 reference.call_1_body) in
  exists e, value (Client_Call c "call-1") = Val (Some reference.call_1, e).
Proof.
  intros c.
  destruct (single_resource_methods_index_zero c) as (_ & _ & HCall & _).
  apply (HCall "call-1"
           (addCommonHeaders c (reference.request_to Get (CallPath +:+ "/call-1") None))
           reference.call_1_list None);
    [vm_compute; reflexivity | vm_compute; reflexivity | left; reflexivity].
Defined.

(** [Call] on a response without a list: the access to element zero is out
    of range. *)
Lemma Call_on_empty_list_panics :
  let c := New "key" (reference.server 200 "{}") in
  value (Client_Call c "call-1") = Panic "runtime error: index out of range".
Proof. vm_compute. reflexivity. Qed.

(** The form body of a text message. *)
Lemma createRequest_form_body_round_trip_witness :
  let c := New "key" (reference.server 200 "{}") in
  exists req body,
    value (createRequest c Post RestEndpoint "messages" (Some reference.message_params))
    = Val (Ok req)
    /\ http.Body req = Some body
    /\ body = "body=Hello+World+%26+co&originator=MessageBird&recipients=31612345678%2C31698765432"
    /\ snd (url.ParseQuery body) = None
    /\ forall k, default [] (fst (url.ParseQuery body) !! k)
                 = default [] (reference.message_params !! k).
Proof.
  intros c.
  set (req := addCommonHeaders c
                (http.with_header
                   (fresh_request Post {| http.URL_String := RestEndpoint +:+ "/messages" |}
                      (Some (url.Encode reference.message_params)))
                   (http.Set_ ∅ "Content-Type" "application/x-www-form-urlencoded"))).
  assert (Hbuilt : value (createRequest c Post RestEndpoint "messages"
                            (Some reference.message_params)) = Val (Ok req))
    by (vm_compute; reflexivity).
  destruct (createRequest_form_body_round_trip c Post RestEndpoint "messages"
              reference.message_params req Hbuilt)
    as (body & Hbody & Hencode & Herr & Hvalues).
  exists req, body. repeat split; assumption.
Defined.

(** The headers of a form request and of a JSON request. *)
Lemma builders_set_headers_witness :
  let c := New "key" (reference.server 200 "{}") in
  (exists req,
      value (createRequest c Post RestEndpoint "messages" (Some reference.message_params))
      = Val (Ok req)
      /\ http.Headers req !! "Authorization" = Some ["AccessKey key"]
      /\ http.Headers req !! "Content-Type" = Some ["application/x-www-form-urlencoded"])
  /\ (exists req,
      value (createJSONRequest c Post VoiceEndpoint CallPath (@None Empty_set))
      = Val (Ok req)
      /\ http.Headers req !! "Authorization" = Some ["AccessKey key"]
      /\ http.Headers req !! "Content-Type" = Some ["application/json"]
      /\ http.Body req = Some "null").
Proof.
  intros c. destruct builders_set_headers as [Hform Hjson]. split.
  - set (req := addCommonHeaders c
                  (http.with_header
                     (fresh_request Post {| http.URL_String := RestEndpoint +:+ "/messages" |}
                        (Some (url.Encode reference.message_params)))
                     (http.Set_ ∅ "Content-Type" "application/x-www-form-urlencoded"))).
    assert (Hbuilt : value (createRequest c Post RestEndpoint "messages"
                              (Some reference.message_params)) = Val (Ok req))
      by (vm_compute; reflexivity).
    destruct (Hform c Post RestEndpoint "messages" (Some reference.message_params) req Hbuilt)
      as (_ & HB & _ & HD & _).
    exists req. repeat split; assumption.
  - set (req := addCommonHeaders c
                  (http.with_header
                     (fresh_request Post {| http.URL_String := VoiceEndpoint +:+ "/calls" |}
                        (Some "null"))
                     (http.Set_ ∅ "Content-Type" "application/json"))).
    assert (Hbuilt : value (createJSONRequest c Post VoiceEndpoint CallPath (@None Empty_set))
                     = Val (Ok req))
      by (vm_compute; reflexivity).
    destruct (Hjson Empty_set _ c Post VoiceEndpoint CallPath None req Hbuilt)
      as (_ & HB & _ & HD & _).
    exists req. repeat split; assumption.
Defined.

(** C1, where the code departs from it. The server answers 404 with a body
    that carries a list; the dispatcher returns [ErrResponse] with the decoded
    list; [Call] and [NewCallFlow] return the first element with a nil error,
    so their callers never see the API error. *)
Theorem Call_and_NewCallFlow_drop_ErrResponse :
  let c := New "key" (reference.server 404 reference.call_x_body) in
  let req := addCommonHeaders c (reference.request_to Get (CallPath +:+ "/x") None) in
  value (createRequest c Get VoiceEndpoint (CallPath +:+ "/" +:+ "x") None) = Val (Ok req)
  /\ value (request c (Some (zero : CallList)) req)
     = Val (Some reference.call_x_list, Some ErrResponse)
  /\ value (Client_Call c "x") = Val (Some reference.call_x, None)
  /\ value (Client_NewCallFlow c None) = Val (Some reference.call_flow_x, None).
Proof. repeat split; vm_compute; reflexivity. Qed.

(** C6, where the code departs from it. The request [DeleteWebhook] sends has
    the method [Delete], the value of the constant of that name, which is not
    the HTTP method [DELETE]. *)
Theorem DeleteWebhook_sends_method_Delete :
  let c := New "key" (reference.server 200 "") in
  exists req rest,
    trace (Client_DeleteWebhook c "wh-1") = EvSend req :: rest
    /\ http.Method req = Delete
    /\ Delete = "Delete"
    /\ http.Method req <> "DELETE".
Proof.
  intros c.
  exists (addCommonHeaders c (reference.request_to "Delete" (WebhookPath +:+ "/wh-1") None)).
  eexists. split; [vm_compute; reflexivity|].
  repeat split. discriminate.
Qed.

(** C7, where the code departs from it. A client made by [New] has no debug
    logger; [request] writes nothing to the log, yet the response body goes
    to standard output through the [fmt.Printf] that follows the guarded
    [log.Printf]. *)
Theorem request_prints_body_without_debug_logger :
  let c := New "key" (reference.server 200 reference.call_1_body) in
  let req := reference.request_to Get (CallPath +:+ "/call-1") None in
  DebugLog c = None
  /\ trace (request c (Some (zero : CallList)) req)
     = [EvSend req;
        EvStdout ("HTTP RESPONSE: " +:+ reference.call_1_body +:+ newline);
        EvUnmarshal reference.call_1_body].
Proof. split; vm_compute; reflexivity. Qed.

End Examples.

(** * Further properties of client.go *)

(** ** [request]: every way out *)

Section DispatcherExtras.

Context `{GoLib} {V : Type} `{!JSONUnmarshal V}.

(** [request] never panics, and [request_outcome] is what it returns. *)
Lemma request_value (c : Client) (v : option V) (req : http.Request) :
  value (request c v req) = Val (request_outcome c v req).
Proof.
  unfold request_outcome.
  destruct (http.Do (HTTPClient c) req) as [cause|response] eqn:HDo.
  { rewrite (request_transport_failure c v req cause HDo). reflexivity. }
  destruct (ioutil_ReadAll (http.ResponseBody response)) as [body|err] eqn:HRead.
  2:{ unfold request, value, bind, emit, ret. rewrite HDo, HRead. reflexivity. }
  destruct (Z.eqb_spec (http.StatusCode response) 500) as [H500|H500].
  { rewrite (request_500_run c v req response body HDo HRead H500). reflexivity. }
  destruct v as [x|].
  - rewrite (request_decode_run c x req response body HDo HRead H500). reflexivity.
  - rewrite (request_nil_run c req response body HDo HRead H500). reflexivity.
Qed.

(** One request goes to the transport, whatever comes back. *)
Lemma request_sends (c : Client) (v : option V) (req : http.Request) :
  List.filter is_send (trace (request c v req)) = [EvSend req].
Proof.
  destruct (http.Do (HTTPClient c) req) as [cause|response] eqn:HDo.
  { rewrite (request_transport_failure c v req cause HDo). reflexivity. }
  destruct (ioutil_ReadAll (http.ResponseBody response)) as [body|err] eqn:HRead.
  2:{ unfold request, trace, bind, emit, ret. rewrite HDo, HRead. reflexivity. }
  destruct (Z.eq_dec (http.StatusCode response) 500) as [H500|H500].
  { rewrite (request_500_run c v req response body HDo HRead H500).
    unfold trace, preamble. cbn [snd]. destruct (DebugLog c); reflexivity. }
  destruct v as [x|].
  - rewrite (request_decode_run c x req response body HDo HRead H500).
    unfold trace, preamble. cbn [snd]. destruct (DebugLog c); reflexivity.
  - rewrite (request_nil_run c req response body HDo HRead H500).
    unfold trace, preamble. cbn [snd]. destruct (DebugLog c); reflexivity.
Qed.


(** X1. When the transport fails, [request] returns the transport's error and
    the container it was given; it prints nothing and decodes nothing: the
    only effect is the attempt to send. *)
Theorem request_transport_error (c : Client) (v : option V) (req : http.Request)
    (cause : string) :
  http.Do (HTTPClient c) req = inl cause ->
  value (request c v req) = Val (v, Some (TransportError cause))
  /\ trace (request c v req) = [EvSend req].
Proof.
  intros HDo. rewrite (request_transport_failure c v req cause HDo). split; reflexivity.
Qed.

(** X2. When the body of the response cannot be read, [request] returns the
    read error and the container it was given, whatever the status code is;
    nothing is printed and nothing is decoded. *)
Theorem request_read_error (c : Client) (v : option V) (req : http.Request)
    (response : http.Response) (msg : string) :
  http.Do (HTTPClient c) req = inr response ->
  http.ResponseBody response = http.ReadFails msg ->
  value (request c v req) = Val (v, Some (ReadError msg))
  /\ trace (request c v req) = [EvSend req].
Proof.
  intros HDo HBody. unfold request, value, trace, bind, emit, ret.
  rewrite HDo, HBody. split; reflexivity.
Qed.


(** X4. [request] hands its request to the transport exactly once, first of
    all its effects, and never a second time: not after a transport failure,
    a status 500 or a decode error. *)
Theorem request_sends_exactly_once (c : Client) (v : option V) (req : http.Request) :
  exists rest,
    trace (request c v req) = EvSend req :: rest
    /\ forall r, EvSend r ∉ rest.
Proof.
  assert (Hpre : forall body (tail : list event),
             (forall r, EvSend r ∉ tail) ->
             exists rest, (preamble c req body ++ tail)%list = EvSend req :: rest
                          /\ forall r, EvSend r ∉ rest).
  { intros body tail Htail. unfold preamble. eexists. split; [reflexivity|].
    intros r Hin. destruct (DebugLog c); cbn in Hin;
      repeat (apply elem_of_cons in Hin as [Hin|Hin]; [discriminate|]);
      exact (Htail r Hin). }
  destruct (http.Do (HTTPClient c) req) as [cause|response] eqn:HDo.
  { rewrite (request_transport_failure c v req cause HDo).
    exists []. split; [reflexivity|]. intros r. apply not_elem_of_nil. }
  destruct (ioutil_ReadAll (http.ResponseBody response)) as [body|err] eqn:HRead.
  2:{ unfold request, trace, bind, emit, ret. rewrite HDo, HRead.
      exists []. split; [reflexivity|]. intros r. apply not_elem_of_nil. }
  destruct (Z.eq_dec (http.StatusCode response) 500) as [H500|H500].
  { rewrite (request_500_run c v req response body HDo HRead H500).
    unfold trace. cbn [snd]. rewrite <- (app_nil_r (preamble c req body)).
    apply Hpre. intros r. apply not_elem_of_nil. }
  destruct v as [x|].
  - rewrite (request_decode_run c x req response body HDo HRead H500).
    unfold trace. cbn [snd]. apply Hpre.
    intros r Hin. apply elem_of_cons in Hin as [Hin|Hin]; [discriminate|].
    apply elem_of_nil in Hin. exact Hin.
  - rewrite (request_nil_run c req response body HDo HRead H500).
    unfold trace. cbn [snd]. rewrite <- (app_nil_r (preamble c req body)).
    apply Hpre. intros r. apply not_elem_of_nil.
Qed.

End DispatcherExtras.

(** ** The debug line of [createRequest]: [QueryUnescape] of an encoded body *)

Lemma QueryUnescape_escaped_prefix (s t : string) :
  url.QueryUnescape (url.QueryEscape s +:+ t) = (fun u => s +:+ u) <$> url.QueryUnescape t.
Proof.
  induction s as [|c s IH].
  - change (url.QueryEscape "" +:+ t) with t. destruct (url.QueryUnescape t); reflexivity.
  - cbn [url.QueryEscape]. rewrite url_facts.string_app_assoc, url_facts.unescape_escapeByte, IH.
    destruct (url.QueryUnescape t); reflexivity.
Qed.

Lemma QueryUnescape_plain (c : ascii) (t : string) :
  c = "="%char \/ c = "&"%char ->
  url.QueryUnescape (String c t) = String c <$> url.QueryUnescape t.
Proof. intros [-> | ->]; reflexivity. Qed.

Lemma QueryUnescape_pair_text (p : string * string) (t : string) :
  url.QueryUnescape (url.pair_text p +:+ t)
  = (fun u => fst p +:+ "=" +:+ snd p +:+ u) <$> url.QueryUnescape t.
Proof.
  unfold url.pair_text.
  change (url.QueryEscape (fst p) +:+ "=" +:+ url.QueryEscape (snd p))
    with (url.QueryEscape (fst p) +:+ String "=" (url.QueryEscape (snd p))).
  rewrite url_facts.string_app_assoc, QueryUnescape_escaped_prefix.
  rewrite url_facts.string_app_cons, QueryUnescape_plain by tauto.
  rewrite QueryUnescape_escaped_prefix.
  destruct (url.QueryUnescape t) as [u|]; [|reflexivity].
  cbn. f_equal.
Qed.

Lemma string_app_nil_r (s : string) : s +:+ "" = s.
Proof. induction s as [|c s IH]; [reflexivity|]. rewrite url_facts.string_app_cons, IH. reflexivity. Qed.

Lemma QueryUnescape_join_pairs (ps : list (string * string)) :
  url.QueryUnescape (url.join_pairs ps) = Some (raw_pairs ps).
Proof.
  induction ps as [|p ps IH]; [reflexivity|].
  destruct ps as [|q ps].
  - cbn [url.join_pairs raw_pairs].
    rewrite <- (string_app_nil_r (url.pair_text p)), QueryUnescape_pair_text.
    cbn. rewrite !string_app_nil_r. reflexivity.
  - change (url.join_pairs (p :: q :: ps))
      with (url.pair_text p +:+ String "&" (url.join_pairs (q :: ps))).
    rewrite QueryUnescape_pair_text, QueryUnescape_plain by tauto.
    rewrite IH. reflexivity.
Qed.

(** [url.QueryUnescape] never fails on the output of [Values.Encode], and
    gives the pairs back unescaped. *)
Lemma QueryUnescape_Encode (v : url.Values) :
  url.QueryUnescape (url.Encode v) = Some (raw_pairs (url.pairs v)).
Proof. rewrite url_facts.Encode_join_pairs. apply QueryUnescape_join_pairs. Qed.

(** ** The builders: success, failure and effects *)

Section BuilderExtras.

Context `{GoLib}.

Lemma validMethod_GET : http.validMethod "GET" = true.
Proof. vm_compute. reflexivity. Qed.

Lemma createRequest_returns (c : Client) (method endpoint path : string)
    (params : option url.Values) :
  exists r, value (createRequest c method endpoint path params) = Val r.
Proof.
  unfold createRequest, value.
  destruct (url_Parse _); [eauto|].
  destruct params as [p|]; destruct (http_NewRequest _ _ _); cbn; eauto;
    unfold bind, ret, log_Printf, emit; destruct (DebugLog c);
    try destruct (url.QueryUnescape (url.Encode p)); cbn; eauto.
Qed.

Lemma createRequest_Ok_parsed (c : Client) (method endpoint path : string)
    (params : option url.Values) (req : http.Request) :
  value (createRequest c method endpoint path params) = Val (Ok req) ->
  exists uri,
    url_Parse (endpoint +:+ "/" +:+ path) = inr uri
    /\ url_Parse (http.URL_String uri) = inr (http.Url req)
    /\ http.Method req = (if String.eqb method "" then "GET" else method)
    /\ http.Body req = url.Encode <$> params.
Proof.
  unfold createRequest, value.
  destruct (url_Parse (endpoint +:+ "/" +:+ path)) as [msg|uri]; [discriminate|].
  destruct params as [p|].
  - destruct (http_NewRequest method (http.URL_String uri) (Some (url.Encode p)))
      as [r|err] eqn:HNew; [|cbn; discriminate].
    apply http_NewRequest_Ok in HNew as (u & Hu & ->).
    unfold bind, ret, log_Printf, emit.
    destruct (DebugLog c); [destruct (url.QueryUnescape (url.Encode p))|];
      cbn; intros [= <-]; exists uri; repeat split; assumption.
  - destruct (http_NewRequest method (http.URL_String uri) None) as [r|err] eqn:HNew;
      [|cbn; discriminate].
    apply http_NewRequest_Ok in HNew as (u & Hu & ->).
    unfold bind, ret, log_Printf, emit.
    destruct (DebugLog c); cbn; intros [= <-]; exists uri; repeat split; assumption.
Qed.


Lemma createRequest_no_send (c : Client) (method endpoint path : string)
    (params : option url.Values) :
  List.filter is_send (trace (createRequest c method endpoint path params)) = [].
Proof.
  unfold createRequest, trace.
  destruct (url_Parse _); [reflexivity|].
  destruct params as [p|]; destruct (http_NewRequest _ _ _); try reflexivity;
    unfold bind, ret, log_Printf, emit; destruct (DebugLog c);
    try destruct (url.QueryUnescape (url.Encode p)); reflexivity.
Qed.


Lemma createJSONRequest_returns {P} `{!JSONMarshal P} (c : Client)
    (method endpoint path : string) (params : option P) :
  exists r, value (createJSONRequest c method endpoint path params) = Val r.
Proof.
  unfold createJSONRequest, value.
  destruct (url_Parse _); [eauto|].
  destruct (json_Marshal_ptr params); [eauto|].
  destruct (http_NewRequest _ _ _); cbn; eauto.
Qed.

Lemma createJSONRequest_Ok_parsed {P} `{!JSONMarshal P} (c : Client)
    (method endpoint path : string) (params : option P) (req : http.Request) :
  value (createJSONRequest c method endpoint path params) = Val (Ok req) ->
  exists uri text,
    url_Parse (endpoint +:+ "/" +:+ path) = inr uri
    /\ url_Parse (http.URL_String uri) = inr (http.Url req)
    /\ json_Marshal_ptr params = inr text
    /\ http.Method req = (if String.eqb method "" then "GET" else method)
    /\ http.Body req = Some text.
Proof.
  unfold createJSONRequest, value.
  destruct (url_Parse (endpoint +:+ "/" +:+ path)) as [msg|uri]; [discriminate|].
  destruct (json_Marshal_ptr params) as [msg|text]; [discriminate|].
  destruct (http_NewRequest method (http.URL_String uri) (Some text))
    as [r|err] eqn:HNew; [|discriminate].
  apply http_NewRequest_Ok in HNew as (u & Hu & ->).
  cbn. intros [= <-]. exists uri, text. repeat split; assumption.
Qed.


Lemma createJSONRequest_no_send {P} `{!JSONMarshal P} (c : Client)
    (method endpoint path : string) (params : option P) :
  List.filter is_send (trace (createJSONRequest c method endpoint path params)) = [].
Proof.
  unfold createJSONRequest, trace.
  destruct (url_Parse _); [reflexivity|].
  destruct (json_Marshal_ptr params); [reflexivity|].
  destruct (http_NewRequest _ _ _); reflexivity.
Qed.

(** X5. [createRequest] always returns; it returns a request exactly when
    [endpoint/path] parses as a URL, the method is empty or a valid HTTP
    token, and the parsed URL parses again in [http.NewRequest]; otherwise
    its error is the URL error or the invalid-method error. *)
Theorem createRequest_succeeds_iff (c : Client) (method endpoint path : string)
    (params : option url.Values) :
  exists r,
    value (createRequest c method endpoint path params) = Val r
    /\ ((exists req, r = Ok req) <->
        exists uri u,
          url_Parse (endpoint +:+ "/" +:+ path) = inr uri
          /\ (method = "" \/ http.validMethod method = true)
          /\ url_Parse (http.URL_String uri) = inr u)
    /\ (forall e, r = Err e ->
          (exists msg, e = ParseError msg) \/ (exists msg, e = MethodError msg)).
Proof.
  unfold createRequest, http_NewRequest, value.
  destruct (url_Parse (endpoint +:+ "/" +:+ path)) as [msg|uri] eqn:HParse.
  { eexists. split; [reflexivity|]. split; [split|].
    - intros [req [=]].
    - intros (uri & u & [=] & _).
    - intros e [= <-]. left. eauto. }
  assert (Hvalid : http.validMethod (if String.eqb method "" then "GET" else method) = true
                   <-> (method = "" \/ http.validMethod method = true)).
  { destruct (String.eqb_spec method "") as [->|Hne].
    - rewrite validMethod_GET. tauto.
    - split; [tauto|]. intros [?|?]; [contradiction|assumption]. }
  destruct (http.validMethod (if String.eqb method "" then "GET" else method)) eqn:HMethod.
  2:{ destruct params; cbn; (eexists; split; [reflexivity|]; split; [split|]);
        try (intros [req [=]]);
        try (intros (uri' & u & _ & Hm & _); apply Hvalid in Hm; discriminate);
        intros e [= <-]; right; eauto. }
  destruct (url_Parse (http.URL_String uri)) as [msg|u] eqn:HParse2.
  { destruct params; cbn; (eexists; split; [reflexivity|]; split; [split|]);
      try (intros [req [=]]);
      try (intros (uri' & u & [= <-] & _ & Hu); congruence);
      intros e [= <-]; left; eauto. }
  assert (Hyes : exists uri0 u0, inr uri = inr uri0 (A := string)
                   /\ (method = "" \/ http.validMethod method = true)
                   /\ url_Parse (http.URL_String uri0) = inr u0).
  { exists uri, u. split; [reflexivity|]. split; [apply Hvalid; reflexivity|assumption]. }
  destruct params as [p|]; cbn; unfold bind, ret, log_Printf, emit;
    destruct (DebugLog c); try destruct (url.QueryUnescape (url.Encode p)); cbn;
    (eexists; split; [reflexivity|]; split; [split|]);
    try (intros _; exact Hyes); try (intros _; eexists; reflexivity);
    intros e [=].
Qed.

(** X6. Without a debug logger, or when it fails, [createRequest] has no
    effect at all: nothing is logged, printed or sent. *)
Theorem createRequest_silent (c : Client) (method endpoint path : string)
    (params : option url.Values) :
  DebugLog c = None \/ (exists e, value (createRequest c method endpoint path params) = Val (Err e)) ->
  trace (createRequest c method endpoint path params) = [].
Proof.
  unfold createRequest, value, trace.
  destruct (url_Parse (endpoint +:+ "/" +:+ path)) as [msg|uri]; [reflexivity|].
  destruct params as [p|].
  - destruct (http_NewRequest method (http.URL_String uri) (Some (url.Encode p)));
      [|reflexivity].
    unfold bind, ret, log_Printf, emit.
    destruct (DebugLog c); [|reflexivity].
    destruct (url.QueryUnescape (url.Encode p)); cbn;
      intros [[=] | [e [=]]].
  - destruct (http_NewRequest method (http.URL_String uri) None); [|reflexivity].
    unfold bind, ret, log_Printf, emit.
    destruct (DebugLog c); [|reflexivity].
    cbn. intros [[=] | [e [=]]].
Qed.

(** X7. With a debug logger, a successful [createRequest] writes exactly one
    log line: the method as it was passed, the URL, and, for form parameters,
    the pairs unescaped in the order of the body. The fallback that logs the
    escaped body is never taken. *)
Theorem createRequest_debug_log (c : Client) (method endpoint path : string)
    (params : option url.Values) (lg : Logger) (uri : http.URL) (req : http.Request) :
  DebugLog c = Some lg ->
  url_Parse (endpoint +:+ "/" +:+ path) = inr uri ->
  value (createRequest c method endpoint path params) = Val (Ok req) ->
  trace (createRequest c method endpoint path params)
  = [EvLog match params with
           | Some p => "HTTP REQUEST: " +:+ method +:+ " " +:+ http.URL_String uri
                         +:+ " " +:+ raw_pairs (url.pairs p)
           | None => "HTTP REQUEST: " +:+ method +:+ " " +:+ http.URL_String uri
           end].
Proof.
  intros HLog HParse. unfold createRequest, value, trace. rewrite HParse.
  destruct params as [p|].
  - destruct (http_NewRequest method (http.URL_String uri) (Some (url.Encode p)));
      [|cbn; discriminate].
    unfold bind, ret, log_Printf, emit. rewrite HLog, QueryUnescape_Encode.
    intros _. reflexivity.
  - destruct (http_NewRequest method (http.URL_String uri) None); [|cbn; discriminate].
    unfold bind, ret, log_Printf, emit. rewrite HLog. intros _. reflexivity.
Qed.

(** X8. [createJSONRequest] always returns and has no effect: unlike
    [createRequest] it writes no log line, debug logger or not. *)
Theorem createJSONRequest_silent {P} `{!JSONMarshal P} (c : Client)
    (method endpoint path : string) (params : option P) :
  trace (createJSONRequest c method endpoint path params) = []
  /\ exists r, value (createJSONRequest c method endpoint path params) = Val r.
Proof.
  unfold createJSONRequest, trace, value.
  destruct (url_Parse (endpoint +:+ "/" +:+ path)); [split; eauto|].
  destruct (json_Marshal_ptr params); [split; eauto|].
  destruct (http_NewRequest _ _ _); split; eauto.
Qed.

(** X9. The headers of a request from [createRequest] are [Accept],
    [Authorization] and [User-Agent], with [Content-Type] when there are form
    parameters, and no others. *)
Theorem createRequest_header_names (c : Client) (method endpoint path : string)
    (params : option url.Values) (req : http.Request) :
  value (createRequest c method endpoint path params) = Val (Ok req) ->
  dom (http.Headers req)
  = match params with
    | Some _ => {["Accept"; "Authorization"; "User-Agent"; "Content-Type"]}
    | None => {["Accept"; "Authorization"; "User-Agent"]}
    end.
Proof.
  intros Hbuilt. apply createRequest_Ok in Hbuilt as (u & ->).
  destruct canonical_keys as (HCT & HA & HB & HC).
  unfold addCommonHeaders, http.Add, http.Set_. cbn [http.Headers http.with_header].
  rewrite HA, HB, HC.
  destruct params as [p|]; cbn [http.Headers http.with_header fresh_request];
    rewrite ?HCT, !dom_insert_L, dom_empty_L; set_solver.
Qed.

End BuilderExtras.

(** ** What the methods send and return *)

Lemma trace_bind_val {A B} (m : M A) (k : A -> M B) (a : A) :
  value m = Val a -> trace (bind m k) = (trace m ++ trace (k a))%list.
Proof. intros Hm. rewrite trace_bind, Hm. reflexivity. Qed.

Lemma sent_request_is_built {R} (build : M (result http.Request)) (method : M R)
    (req : http.Request) :
  (exists r, value build = Val r) ->
  (forall e, value build = Val (Err e) -> List.filter is_send (trace method) = []) ->
  (forall q, value build = Val (Ok q) -> List.filter is_send (trace method) = [EvSend q]) ->
  EvSend req ∈ trace method ->
  value build = Val (Ok req).
Proof.
  intros [[q|e] Hr] Herr Hok Hin.
  - assert (Hf : In (EvSend req) (List.filter is_send (trace method))).
    { apply List.filter_In. split; [apply list_elem_of_In; exact Hin|reflexivity]. }
    rewrite (Hok q Hr) in Hf. destruct Hf as [[= ->]|[]]. exact Hr.
  - assert (Hf : In (EvSend req) (List.filter is_send (trace method))).
    { apply List.filter_In. split; [apply list_elem_of_In; exact Hin|reflexivity]. }
    rewrite (Herr e Hr) in Hf. destruct Hf.
Qed.

Lemma value_erase {R} (m : M (option R * option Error)) :
  value (erase m)
  = match value m with
    | Val (r, e) => Val (bool_decide (is_Some r), e)
    | Panic msg => Panic msg
    end.
Proof. reflexivity. Qed.

Lemma trace_erase {R} (m : M (option R * option Error)) : trace (erase m) = trace m.
Proof. reflexivity. Qed.

Section SentRequests.

Context `{GoLib}.

Lemma rest_tail_sends {L R} `{!JSONUnmarshal L} (c : Client) (v : option L)
    (req : http.Request) (k : option L * option Error -> M R) :
  (forall r, trace (k r) = []) ->
  List.filter is_send (trace (bind (request c v req) k)) = [EvSend req].
Proof.
  intros Hk. rewrite trace_bind, request_value, List.filter_app, request_sends, Hk.
  reflexivity.
Qed.



End SentRequests.

Ltac unfold_voice :=
  unfold voice_run, voice_build, voice_dispatch,
    Client_CallFlow, Client_CallFlows, Client_NewCallFlow, Client_Call, Client_Calls,
    Client_NewCall, Client_Leg, Client_Legs, Client_Recording, Client_Recordings,
    Client_Transcription, Client_Transcriptions, Client_NewTranscriptionRequest,
    Client_Webhook, Client_Webhooks, Client_NewWebhook in *.

Section VoiceExtras.

Context `{GoLib}.
Context `{!JSONUnmarshal CallFlowList, !JSONUnmarshal CallList, !JSONUnmarshal LegList}.
Context `{!JSONUnmarshal RecordingList, !JSONUnmarshal TranscriptionList}.
Context `{!JSONUnmarshal WebhookList}.
Context `{!JSONMarshal CallFlowParams, !JSONMarshal CallParams, !JSONMarshal WebhookParams}.

Lemma voice_build_no_send (c : Client) (m : voice_method) :
  List.filter is_send (trace (voice_build c m)) = [].
Proof.
  destruct m; cbn [voice_build];
    first [apply createRequest_no_send | apply createJSONRequest_no_send].
Qed.

Lemma voice_build_returns (c : Client) (m : voice_method) :
  exists r, value (voice_build c m) = Val r.
Proof.
  destruct m; cbn [voice_build];
    first [apply createRequest_returns | apply createJSONRequest_returns].
Qed.


Lemma voice_run_on_builder_failure (c : Client) (m : voice_method) (err : Error) :
  value (voice_build c m) = Val (Err err) ->
  value (voice_run c m) = Val (false, Some err)
  /\ trace (voice_run c m) = trace (voice_build c m).
Proof.
  intros Hbuild.
  destruct m; unfold_voice; rewrite value_erase, trace_erase;
    rewrite value_bind, (trace_bind_val _ _ _ Hbuild), Hbuild;
    cbn beta iota; unfold ret at 2; unfold trace at 2; cbn [snd];
    rewrite app_nil_r; (split; reflexivity).
Qed.

Lemma voice_sends_built (c : Client) (m : voice_method) (req : http.Request) :
  value (voice_build c m) = Val (Ok req) ->
  List.filter is_send (trace (voice_run c m)) = [EvSend req].
Proof.
  intros Hbuild. pose proof (voice_build_no_send c m) as Hno.
  destruct m; unfold_voice; rewrite trace_erase;
    rewrite (trace_bind_val _ _ _ Hbuild); cbn beta iota;
    rewrite trace_bind, request_value;
    rewrite !List.filter_app, Hno, request_sends;
    (destruct (request_outcome c (Some zero) req) as [[l|] [e|]];
     [destruct (decide (e = ErrResponse))| |destruct (decide (e = ErrResponse))|]);
    unfold deref, index, bind, ret, panic, trace; cbn;
    try match goal with |- context [?d !! 0%nat] => destruct d; cbn end;
    reflexivity.
Qed.


(** X12. When the dispatcher returns an error other than [ErrResponse] (a
    transport or read failure, [ErrUnexpectedResponse], a decode error), every
    voice method returns nil with that error; the decoded list is not touched
    and the method does not panic. *)
Theorem voice_methods_other_errors (c : Client) (m : voice_method) (req : http.Request)
    (err : Error) :
  value (voice_build c m) = Val (Ok req) ->
  voice_dispatch c m req = Val (Some err) ->
  err <> ErrResponse ->
  value (voice_run c m) = Val (false, Some err).
Proof.
  intros Hbuild Hdispatch Hne.
  destruct m; unfold_voice; rewrite value_erase, value_bind, Hbuild; cbn beta iota;
    rewrite value_bind; unfold error_of in Hdispatch;
    match goal with
    | H : match value ?r with _ => _ end = Val (Some err) |- _ =>
        destruct (value r) as [[l e]|msg]; [|discriminate]; injection H as ->
    end;
    cbn beta iota; rewrite decide_False by exact Hne; reflexivity.
Qed.

(** X13. A voice method sends at most one request, and a request it sends is
    the one its builder returned: nothing is retried, whatever the response. *)
Theorem voice_methods_send_at_most_once (c : Client) (m : voice_method) :
  (forall req, EvSend req ∈ trace (voice_run c m) -> value (voice_build c m) = Val (Ok req))
  /\ (length (List.filter is_send (trace (voice_run c m))) <= 1)%nat.
Proof.
  split.
  - intros req. apply sent_request_is_built; [apply voice_build_returns | | ].
    + intros e Hbuild.
      destruct (voice_run_on_builder_failure c m e Hbuild) as [_ ->].
      apply voice_build_no_send.
    + intros q. apply voice_sends_built.
  - destruct (voice_build_returns c m) as [[q|e] Hbuild].
    + rewrite (voice_sends_built c m q Hbuild). reflexivity.
    + destruct (voice_run_on_builder_failure c m e Hbuild) as [_ ->].
      rewrite voice_build_no_send. cbn. lia.
Qed.

(** X14. The six list methods of the voice API return the whole decoded
    container when the dispatcher returns no error or [ErrResponse]; they
    never index the list, so an empty list is returned as it is. *)
Theorem list_methods_return_whole_list (c : Client) :
  returns_whole_list c (createRequest c Get VoiceEndpoint CallFlowPath None)
    (Client_CallFlows c)
  /\ returns_whole_list c (createRequest c Get VoiceEndpoint CallPath None)
       (Client_Calls c)
  /\ (forall callID,
      returns_whole_list c
        (createRequest c Get VoiceEndpoint (CallPath +:+ "/" +:+ callID +:+ "/" +:+ LegPath) None)
        (Client_Legs c callID))
  /\ (forall callID legID,
      returns_whole_list c
        (createRequest c Get VoiceEndpoint
           (CallPath +:+ "/" +:+ callID +:+ "/" +:+ LegPath +:+ "/" +:+ legID
              +:+ "/" +:+ RecordingPath) None)
        (Client_Recordings c callID legID))
  /\ (forall callID legID recordingID,
      returns_whole_list c
        (createRequest c Get VoiceEndpoint
           (CallPath +:+ "/" +:+ callID +:+ "/" +:+ LegPath +:+ "/" +:+ legID
              +:+ "/" +:+ RecordingPath +:+ "/" +:+ TranscriptionPath) None)
        (Client_Transcriptions c callID legID recordingID))
  /\ returns_whole_list c (createRequest c Get VoiceEndpoint WebhookPath None)
       (Client_Webhooks c).
Proof.
  repeat split; intros;
    [ unfold Client_CallFlows | unfold Client_Calls | unfold Client_Legs
    | unfold Client_Recordings | unfold Client_Transcriptions | unfold Client_Webhooks ];
    (intros req l err Hbuild Hrequest [-> | ->];
     run_method Hbuild Hrequest;
     try rewrite decide_True by reflexivity; eexists; reflexivity).
Qed.

(** X15. The request [Transcriptions] sends is a GET without body for
    [calls/<callID>/legs/<legID>/recordings/transcriptions]: the recording id
    it is given is not part of the URL. *)
Theorem Transcriptions_request (c : Client) (callID legID recordingID : string)
    (req : http.Request) :
  EvSend req ∈ trace (Client_Transcriptions c callID legID recordingID) ->
  (exists uri,
      url_Parse (VoiceEndpoint +:+ "/calls/" +:+ callID +:+ "/legs/" +:+ legID
                   +:+ "/recordings/transcriptions") = inr uri
      /\ url_Parse (http.URL_String uri) = inr (http.Url req))
  /\ http.Method req = "GET"
  /\ http.Body req = None.
Proof.
  intros Hin.
  change (trace (Client_Transcriptions c callID legID recordingID))
    with (trace (voice_run c (VTranscriptions callID legID recordingID))) in Hin.
  apply sent_request_is_built with (build := voice_build c (VTranscriptions callID legID recordingID))
    in Hin.
  - cbn [voice_build] in Hin.
    apply createRequest_Ok_parsed in Hin as (uri & Huri & Hu & Hm & Hb).
    split; [exists uri; split; [exact Huri|exact Hu]|]. split; assumption.
  - apply voice_build_returns.
  - intros e Hbuild.
    destruct (voice_run_on_builder_failure c _ e Hbuild) as [_ ->].
    apply voice_build_no_send.
  - intros q. apply voice_sends_built.
Qed.

End VoiceExtras.

Section RestExtras.

Context `{GoLib}.
Context {Balance HLR HLRList Message MessageList MMSMessage : Type}.
Context {VoiceMessage VoiceMessageList Verify : Type}.
Context `{!Zero Balance, !JSONUnmarshal Balance}.
Context `{!Zero HLR, !JSONUnmarshal HLR}.
Context `{!Zero HLRList, !JSONUnmarshal HLRList}.
Context `{!Zero Message, !JSONUnmarshal Message}.
Context `{!Zero MessageList, !JSONUnmarshal MessageList}.
Context `{!Zero MMSMessage, !JSONUnmarshal MMSMessage}.
Context `{!Zero VoiceMessage, !JSONUnmarshal VoiceMessage}.
Context `{!Zero VoiceMessageList, !JSONUnmarshal VoiceMessageList}.
Context `{!Zero Verify, !JSONUnmarshal Verify}.

Ltac solve_rest_outcome :=
  split;
  [ intros err Hbuild; rewrite value_bind, Hbuild; reflexivity
  | intros req l err Hbuild Hrequest; run_method Hbuild Hrequest;
    destruct err as [e|]; [destruct (decide (e = ErrResponse))|]; reflexivity ].

(** X16. Each REST method returns nil with the builder's error when its
    request cannot be built; the decoded container with a nil error on
    success; the decoded container together with [ErrResponse] on an API
    error; and nil with the error on any other failure. None of them panics. *)
Theorem rest_methods_outcome (c : Client) :
  rest_outcome c (createRequest c Get RestEndpoint BalancePath None)
    (Client_Balance (Balance := Balance) c)
  /\ (forall id,
      rest_outcome c (createRequest c Get RestEndpoint (HLRPath +:+ "/" +:+ id) None)
        (Client_HLR (HLR := HLR) c id))
  /\ rest_outcome c (createRequest c Get RestEndpoint HLRPath None)
       (Client_HLRs (HLRList := HLRList) c)
  /\ (forall msisdn reference,
      rest_outcome c
        (createRequest c Post RestEndpoint HLRPath
           (Some (<["msisdn" := [msisdn]]> (<["reference" := [reference]]> ∅))))
        (Client_NewHLR (HLR := HLR) c msisdn reference))
  /\ (forall id,
      rest_outcome c (createRequest c Get RestEndpoint (MessagePath +:+ "/" +:+ id) None)
        (Client_Message (Message := Message) c id))
  /\ rest_outcome c (createRequest c Get RestEndpoint MessagePath None)
       (Client_Messages (MessageList := MessageList) c)
  /\ (forall id,
      rest_outcome c (createRequest c Get RestEndpoint (MMSPath +:+ "/" +:+ id) None)
        (Client_MMSMessage (MMSMessage := MMSMessage) c id))
  /\ (forall id,
      rest_outcome c
        (createRequest c Get RestEndpoint (VoiceMessagePath +:+ "/" +:+ id) None)
        (Client_VoiceMessage (VoiceMessage := VoiceMessage) c id))
  /\ rest_outcome c (createRequest c Get RestEndpoint VoiceMessagePath None)
       (Client_VoiceMessages (VoiceMessageList := VoiceMessageList) c)
  /\ (forall id token,
      rest_outcome c
        (createRequest c Get RestEndpoint
           (VerifyPath +:+ "/" +:+ id +:+ "?" +:+ url.Encode (url.Set_ ∅ "token" token)) None)
        (Client_VerifyToken (Verify := Verify) c id token)).
Proof.
  repeat match goal with |- _ /\ _ => split end; intros;
    [ unfold Client_Balance | unfold Client_HLR | unfold Client_HLRs | unfold Client_NewHLR
    | unfold Client_Message | unfold Client_Messages | unfold Client_MMSMessage
    | unfold Client_VoiceMessage | unfold Client_VoiceMessages | unfold Client_VerifyToken ];
    solve_rest_outcome.
Qed.

(** X17. A request [NewHLR] sends is a POST with a form body that is
    [msisdn=<msisdn>&reference=<reference>], both values URL-escaped, and
    parsing the body gives back exactly the two values. *)
Theorem NewHLR_request (c : Client) (msisdn reference : string) (req : http.Request) :
  EvSend req ∈ trace (Client_NewHLR (HLR := HLR) c msisdn reference) ->
  http.Method req = "POST"
  /\ http.Headers req !! "Content-Type" = Some ["application/x-www-form-urlencoded"]
  /\ (exists body,
        http.Body req = Some body
        /\ body = "msisdn=" +:+ url.QueryEscape msisdn
                    +:+ "&reference=" +:+ url.QueryEscape reference
        /\ url.ParseQuery body
           = (<["reference" := [reference]]> (<["msisdn" := [msisdn]]> ∅), None)).
Proof.
  intros Hin.
  set (params := <["msisdn" := [msisdn]]> (<["reference" := [reference]]> ∅) : url.Values).
  assert (Hbuilt : value (createRequest c Post RestEndpoint HLRPath (Some params))
                   = Val (Ok req)).
  { apply (sent_request_is_built _ (Client_NewHLR (HLR := HLR) c msisdn reference));
      [apply createRequest_returns | | | exact Hin].
    - intros e Hbuild. unfold Client_NewHLR. fold params.
      rewrite (trace_bind_val _ _ _ Hbuild). cbn beta iota.
      rewrite List.filter_app, createRequest_no_send. reflexivity.
    - intros q Hbuild. unfold Client_NewHLR. fold params.
      rewrite (trace_bind_val _ _ _ Hbuild). cbn beta iota.
      rewrite List.filter_app, createRequest_no_send. apply rest_tail_sends.
      intros [l [e|]]; [destruct (decide (e = ErrResponse))|]; reflexivity. }
  assert (Hpairs : url.pairs params = [("msisdn", msisdn); ("reference", reference)])
    by (vm_compute; reflexivity).
  assert (Hencode : url.Encode params
                    = "msisdn=" +:+ url.QueryEscape msisdn
                        +:+ "&reference=" +:+ url.QueryEscape reference).
  { rewrite url_facts.Encode_join_pairs, Hpairs. cbn [url.join_pairs].
    unfold url.pair_text. cbn [fst snd].
    change (url.QueryEscape "msisdn") with "msisdn".
    change (url.QueryEscape "reference") with "reference".
    rewrite !url_facts.string_app_assoc. reflexivity. }
  pose proof (createRequest_Ok_parsed _ _ _ _ _ _ Hbuilt) as (uri & _ & _ & Hm & Hb).
  repeat split.
  - exact Hm.
  - apply createRequest_Ok in Hbuilt as (u & ->).
    destruct (addCommonHeaders_headers c
                (http.with_header (fresh_request Post u (Some (url.Encode params)))
                   (http.Set_ ∅ "Content-Type" "application/x-www-form-urlencoded"))
                (Some ["application/x-www-form-urlencoded"])) as (_ & _ & _ & HD);
      [|exact HD].
    destruct canonical_keys as (HCT & _). unfold http.Set_. rewrite HCT. reflexivity.
  - exists (url.Encode params). split; [exact Hb|]. split; [exact Hencode|].
    rewrite url_facts.Encode_join_pairs, url_facts.ParseQuery_join_pairs, Hpairs.
    reflexivity.
Qed.

(** X18. A request [VerifyToken] sends is a GET without body and without
    content type; the token travels URL-escaped in the query string of the
    URL, [verify/<id>?token=<token>]. *)
Theorem VerifyToken_request (c : Client) (id token : string) (req : http.Request) :
  EvSend req ∈ trace (Client_VerifyToken (Verify := Verify) c id token) ->
  (exists uri,
      url_Parse (RestEndpoint +:+ "/verify/" +:+ id +:+ "?token=" +:+ url.QueryEscape token)
      = inr uri
      /\ url_Parse (http.URL_String uri) = inr (http.Url req))
  /\ http.Method req = "GET"
  /\ http.Body req = None
  /\ http.Headers req !! "Content-Type" = None.
Proof.
  intros Hin.
  set (path := VerifyPath +:+ "/" +:+ id +:+ "?" +:+ url.Encode (url.Set_ ∅ "token" token)).
  assert (Hbuilt : value (createRequest c Get RestEndpoint path None) = Val (Ok req)).
  { apply (sent_request_is_built _ (Client_VerifyToken (Verify := Verify) c id token));
      [apply createRequest_returns | | | exact Hin].
    - intros e Hbuild. unfold Client_VerifyToken. fold path.
      rewrite (trace_bind_val _ _ _ Hbuild). cbn beta iota.
      rewrite List.filter_app, createRequest_no_send. reflexivity.
    - intros q Hbuild. unfold Client_VerifyToken. fold path.
      rewrite (trace_bind_val _ _ _ Hbuild). cbn beta iota.
      rewrite List.filter_app, createRequest_no_send. apply rest_tail_sends.
      intros [l [e|]]; [destruct (decide (e = ErrResponse))|]; reflexivity. }
  assert (Hencode : url.Encode (url.Set_ ∅ "token" token) = "token=" +:+ url.QueryEscape token).
  { rewrite url_facts.Encode_join_pairs.
    assert (url.pairs (url.Set_ ∅ "token" token) = [("token", token)]) as ->
      by (vm_compute; reflexivity).
    reflexivity. }
  pose proof (createRequest_Ok_parsed _ _ _ _ _ _ Hbuilt) as (uri & Huri & Hu & Hm & Hb).
  unfold path in Huri. rewrite Hencode in Huri.
  split; [exists uri; split; [exact Huri|exact Hu]|].
  split; [exact Hm|]. split; [exact Hb|].
  apply createRequest_Ok in Hbuilt as (u & ->).
  destruct (addCommonHeaders_headers c (fresh_request Get u None) None) as (_ & _ & _ & HD);
    [reflexivity|exact HD].
Qed.

End RestExtras.

(** ** Worked examples for the further properties *)

Section ExtraExamples.

#[local] Existing Instance reference.lib.
#[local] Existing Instance json.Unmarshal.
#[local] Existing Instance json.Marshal.

Lemma request_transport_error_witness :
  let c := New "key" reference.unreachable in
  let req := reference.request_to Get CallPath None in
  value (request c (Some (zero : CallList)) req)
  = Val (Some zero, Some (TransportError "dial tcp: no such host"))
  /\ trace (request c (Some (zero : CallList)) req) = [EvSend req].
Proof.
  intros c req.
  apply (request_transport_error c (Some zero) req "dial tcp: no such host"). reflexivity.
Defined.

Lemma request_read_error_witness :
  let c := New "key" samples.broken_body in
  let req := reference.request_to Get CallPath None in
  value (request c (Some (zero : CallList)) req)
  = Val (Some zero, Some (ReadError "unexpected EOF"))
  /\ trace (request c (Some (zero : CallList)) req) = [EvSend req].
Proof.
  intros c req.
  apply (request_read_error c (Some zero) req
           {| http.StatusCode := 200; http.ResponseBody := http.ReadFails "unexpected EOF" |}
           "unexpected EOF"); reflexivity.
Defined.

Lemma createRequest_silent_witness :
  let c := New "key" (reference.server 200 "{}") in
  trace (createRequest c Post RestEndpoint MessagePath (Some reference.message_params)) = [].
Proof.
  intros c.
  apply (createRequest_silent c Post RestEndpoint MessagePath (Some reference.message_params)).
  left. reflexivity.
Defined.

Lemma createRequest_debug_log_witness :
  let c := samples.with_logger (New "key" (reference.server 200 "{}")) in
  trace (createRequest c Post RestEndpoint MessagePath (Some reference.message_params))
  = [EvLog ("HTTP REQUEST: POST https://rest.messagebird.com/messages "
              +:+ "body=Hello World & co&originator=MessageBird"
              +:+ "&recipients=31612345678,31698765432")].
Proof.
  intros c.
  apply (createRequest_debug_log c Post RestEndpoint MessagePath
           (Some reference.message_params) {| Logger_prefix := "" |}
           {| http.URL_String := RestEndpoint +:+ "/" +:+ MessagePath |}
           (addCommonHeaders c
              (http.with_header
                 (fresh_request Post {| http.URL_String := RestEndpoint +:+ "/messages" |}
                    (Some (url.Encode reference.message_params)))
                 (http.Set_ ∅ "Content-Type" "application/x-www-form-urlencoded"))));
    [reflexivity | reflexivity | vm_compute; reflexivity].
Defined.

Lemma createRequest_header_names_witness :
  let c := New "key" (reference.server 200 "{}") in
  exists req,
    value (createRequest c Get VoiceEndpoint CallPath None) = Val (Ok req)
    /\ dom (http.Headers req) = {["Accept"; "Authorization"; "User-Agent"]}.
Proof.
  intros c.
  exists (addCommonHeaders c (reference.request_to Get CallPath None)).
  assert (Hbuilt : value (createRequest c Get VoiceEndpoint CallPath None)
                   = Val (Ok (addCommonHeaders c (reference.request_to Get CallPath None))))
    by (vm_compute; reflexivity).
  split; [exact Hbuilt|].
  exact (createRequest_header_names c Get VoiceEndpoint CallPath None _ Hbuilt).
Defined.


Lemma voice_methods_other_errors_witness :
  let c := New "key" (reference.server 500 "internal error") in
  value (voice_run c VCalls) = Val (false, Some ErrUnexpectedResponse).
Proof.
  intros c.
  apply (voice_methods_other_errors c VCalls
           (addCommonHeaders c (reference.request_to Get CallPath None)));
    [vm_compute; reflexivity | vm_compute; reflexivity | discriminate].
Defined.

Lemma list_methods_return_whole_list_witness :
  let c := New "key" (reference.server 404 reference.call_x_body) in
  exists e, value (Client_Calls c) = Val (Some reference.call_x_list, e).
Proof.
  intros c.
  destruct (list_methods_return_whole_list c) as (_ & HCalls & _).
  apply (HCalls (addCommonHeaders c (reference.request_to Get CallPath None))
           reference.call_x_list (Some ErrResponse));
    [vm_compute; reflexivity | vm_compute; reflexivity | right; reflexivity].
Defined.

Lemma rest_methods_outcome_witness :
  let c := New "key" (reference.server 401 samples.error_body) in
  value (Client_Balance (Balance := json.value) c)
  = Val (Some samples.error_value, Some ErrResponse).
Proof.
  intros c.
  destruct (rest_methods_outcome (Balance := json.value) (HLR := json.value)
              (HLRList := json.value) (Message := json.value) (MessageList := json.value)
              (MMSMessage := json.value) (VoiceMessage := json.value)
              (VoiceMessageList := json.value) (Verify := json.value) c)
    as ((_ & HBalance) & _).
  apply (HBalance (addCommonHeaders c (samples.rest_request Get BalancePath None))
           (Some samples.error_value) (Some ErrResponse));
    vm_compute; reflexivity.
Defined.

Lemma NewHLR_request_witness :
  let c := New "key" (reference.server 200 "{}") in
  exists req,
    EvSend req ∈ trace (Client_NewHLR (HLR := json.value) c "31612345678" "ref&1")
    /\ http.Method req = "POST"
    /\ http.Body req = Some "msisdn=31612345678&reference=ref%261".
Proof.
  intros c.
  set (req := addCommonHeaders c
                (http.with_header
                   (samples.rest_request Post HLRPath
                      (Some "msisdn=31612345678&reference=ref%261"))
                   (http.Set_ ∅ "Content-Type" "application/x-www-form-urlencoded"))).
  assert (Hin : EvSend req ∈ trace (Client_NewHLR (HLR := json.value) c "31612345678" "ref&1"))
    by (vm_compute; apply list_elem_of_here).
  destruct (NewHLR_request (HLR := json.value) c "31612345678" "ref&1" req Hin)
    as (Hm & _ & body & Hb & _).
  exists req. split; [exact Hin|]. split; [exact Hm|]. reflexivity.
Defined.

Lemma VerifyToken_request_witness :
  let c := New "key" (reference.server 200 "{}") in
  exists req,
    EvSend req ∈ trace (Client_VerifyToken (Verify := json.value) c "verify-1" "12 34")
    /\ http.URL_String (http.Url req)
       = "https://rest.messagebird.com/verify/verify-1?token=12+34"
    /\ http.Body req = None.
Proof.
  intros c.
  set (req := addCommonHeaders c
                (samples.rest_request Get "verify/verify-1?token=12+34" None)).
  assert (Hin : EvSend req ∈ trace (Client_VerifyToken (Verify := json.value) c "verify-1" "12 34"))
    by (vm_compute; apply list_elem_of_here).
  destruct (VerifyToken_request (Verify := json.value) c "verify-1" "12 34" req Hin)
    as (_ & _ & Hb & _).
  exists req. split; [exact Hin|]. split; [reflexivity|exact Hb].
Defined.

Lemma Transcriptions_request_witness :
  let c := New "key" (reference.server 200 "{}") in
  exists req,
    EvSend req ∈ trace (Client_Transcriptions c "c1" "l1" "r1")
    /\ http.URL_String (http.Url req)
       = "https://voice.messagebird.com/calls/c1/legs/l1/recordings/transcriptions"
    /\ http.Method req = "GET".
Proof.
  intros c.
  set (req := addCommonHeaders c
                (reference.request_to Get "calls/c1/legs/l1/recordings/transcriptions" None)).
  assert (Hin : EvSend req ∈ trace (Client_Transcriptions c "c1" "l1" "r1"))
    by (vm_compute; apply list_elem_of_here).
  destruct (Transcriptions_request c "c1" "l1" "r1" req Hin) as (_ & Hm & _).
  exists req. split; [exact Hin|]. split; [reflexivity|exact Hm].
Defined.

(** [DeleteWebhook] answered with 204 No Content. *)
Lemma DeleteWebhook_on_204 :
  value (Client_DeleteWebhook (New "key" (reference.server 204 "")) "wh-1")
  = Val (Some ErrResponse).
Proof. vm_compute. reflexivity. Qed.

End ExtraExamples.
